(** * cihai: the application object, its configuration and its command line

    A shallow embedding of [cihai/core.py] and [cihai/cli.py], and of the
    settings and the fixture lookup of [cihai/test.py].

    Python values are a small universe [val]; objects live in a heap and
    are named by their location, so that two attributes holding the same
    handle are visibly the same object.  Code that raises is a computation
    in a state-and-exception monad over the [world]: the effects made
    before an exception stay in the world, as in Python. *)

From Stdlib Require Import ZArith Ascii String.
From stdpp Require Import base gmap strings list.

Local Open Scope string_scope.
Local Open Scope list_scope.

(** ** Values *)

(** What [add_dataset] and [bootstrap] observe of a class: whether calling
    it without arguments gives an instance, whether its instances are
    instances of [extend.SQLAlchemyMixin], and whether they inherit
    [add_plugin] from [extend.Dataset]. *)
Record pyclass := PyClass {
  cls_name : string;
  cls_instantiable : bool;
  cls_sqlalchemy : bool;
  cls_dataset : bool
}.

(** Heap locations. *)
Abbreviation loc := nat (only parsing).

(** The values the code handles: the values of a configuration, class
    objects, references to heap objects, bound methods, and what a
    database handle hands out: its parts ([base], [session], ...), a
    reflected record class and a record. *)

#[warnings="-register-all"]
Inductive val : Type :=
| VNone
| VBool (b : bool)
| VInt (z : Z)
| VStr (s : string)
| VDict (d : list (string * val))
| VClass (c : pyclass)
| VRef (l : loc)
| VMethod (self : loc) (name : string)
| VSub (l : loc) (part : string)
| VMapped (name : string) (columns : list string)
| VRecord (columns : list string) (r : list (string * option string)).

(** A dict is kept as the list of its items, in iteration order. *)
Fixpoint dict_get {A : Type} (k : string) (d : list (string * A)) : option A :=
  match d with
  | [] => None
  | (k', v) :: d' => if String.eqb k k' then Some v else dict_get k d'
  end.

(** [d[k] = v]: an existing key keeps its place, a new key goes last. *)
Fixpoint dict_set {A : Type} (k : string) (v : A) (d : list (string * A))
  : list (string * A) :=
  match d with
  | [] => [(k, v)]
  | (k', v') :: d' =>
      if String.eqb k k' then (k, v) :: d' else (k', v') :: dict_set k v d'
  end.

Definition dict_keys {A : Type} (d : list (string * A)) : list string :=
  map fst d.

Fixpoint mem_string (k : string) (l : list string) : bool :=
  match l with
  | [] => false
  | k' :: l' => String.eqb k k' || mem_string k l'
  end.

Fixpoint nodup_keys (l : list string) : bool :=
  match l with
  | [] => true
  | k :: l' => negb (mem_string k l') && nodup_keys l'
  end.

(** A value is well formed when every dict in it has each key once, which
    is what a Python dict is. *)
Fixpoint wf (v : val) : bool :=
  match v with
  | VDict d =>
      nodup_keys (dict_keys d) &&
      (fix wf_items (d : list (string * val)) : bool :=
         match d with
         | [] => true
         | (_, x) :: d' => wf x && wf_items d'
         end) d
  | _ => true
  end.

Definition is_mapping (v : val) : bool :=
  match v with VDict _ => true | _ => false end.

(** ** Configuration merge *)

(** Modelled from the spec: [utils.merge_dict] is not among the sources.
    The spec has the configuration loader merge "nested mapping defaults
    with user-supplied overrides": the items of [additional] are laid over
    [base] key by key, two mappings under the same key are merged in turn,
    and anywhere else the value of [additional] stands. *)
Fixpoint merge_dict (base additional : val) {struct additional} : val :=
  match additional with
  | VDict a =>
      match base with
      | VDict b =>
          VDict
            ((fix merge_items (a : list (string * val))
                  (b : list (string * val)) {struct a} : list (string * val) :=
                match a with
                | [] => b
                | (k, v) :: a' =>
                    merge_items a'
                      (dict_set k
                         (match dict_get k b with
                          | Some bv => merge_dict bv v
                          | None => v
                          end) b)
                end) a b)
      | _ => additional
      end
  | _ => additional
  end.

Fixpoint merge_items (a b : list (string * val)) : list (string * val) :=
  match a with
  | [] => b
  | (k, v) :: a' =>
      merge_items a'
        (dict_set k
           (match dict_get k b with
            | Some bv => merge_dict bv v
            | None => v
            end) b)
  end.


(** The items of a dict are well formed. *)
Fixpoint wf_items (d : list (string * val)) : bool :=
  match d with
  | [] => true
  | (_, x) :: d' => wf x && wf_items d'
  end.

(** The value under a path of keys. *)
Fixpoint get_path (p : list string) (v : val) : option val :=
  match p with
  | [] => Some v
  | k :: p' =>
      match v with
      | VDict d =>
          match dict_get k d with
          | Some x => get_path p' x
          | None => None
          end
      | _ => None
      end
  end.


(** ** The world *)

(** A row of a table gives each column NULL or a text. *)
Definition row := list (string * option string).

Record table := Table {
  tbl_columns : list string;
  tbl_rows : list row
}.

Inductive handler :=
| StreamHandler
| OtherHandler (name : string).

Record logger := Logger {
  log_level : Z;
  log_handlers : list handler
}.

Inductive obj :=
| OCihai (d : list (string * val))
| ODatabase (reflected : list (string * list string))
| OInstance (cls : pyclass) (d : list (string * val)).

(** The kind of object an attribute was looked up on. *)
Inductive owner :=
| OnCihai
| OnInstance (cls : string)
| OnDatabase
| OnNone
| OnValue.

Inductive exn :=
| AttributeError (o : owner) (name : string)
| TypeError (msg : string)
| ImportError (name : string)
| ValueError (msg : string)
| CihaiException (msg : string)
| ConfigError (path : string)
| UsageError (msg : string)
| DatabaseError (msg : string).

(** The steps a run goes through, written down where the code takes them. *)
Inductive event :=
| EvParseFlags
| EvSetupLogger (level : string)
| EvMergeConfig (config : val)
| EvExpandConfig
| EvMakedirs (path : string)
| EvDatabase (l : loc)
| EvImport (path : string)
| EvAddDataset (namespace : string) (l : loc)
| EvAddPlugin (dataset : loc) (namespace : string) (l : loc)
| EvStoreCheck
| EvBootstrapUnihan
| EvReflectDb
| EvEcho (line : string)
| EvQuery (char : string)
| EvPrint (line : string).

Record world := World {
  heap : list obj;
  fs : gset string;
  loggers : gmap string logger;
  store : list (string * table);
  trace : list event
}.

Definition set_heap (h : list obj) (w : world) : world :=
  World h (fs w) (loggers w) (store w) (trace w).
Definition set_fs (f : gset string) (w : world) : world :=
  World (heap w) f (loggers w) (store w) (trace w).
Definition set_loggers (g : gmap string logger) (w : world) : world :=
  World (heap w) (fs w) g (store w) (trace w).
Definition set_store (s : list (string * table)) (w : world) : world :=
  World (heap w) (fs w) (loggers w) s (trace w).
Definition set_trace (t : list event) (w : world) : world :=
  World (heap w) (fs w) (loggers w) (store w) t.

(** ** Computations that may raise *)

Inductive result (A : Type) :=
| Ok (a : A)
| Err (e : exn).
Arguments Ok {A} a.
Arguments Err {A} e.

Definition M (A : Type) : Type := world -> result A * world.

Definition ret {A : Type} (a : A) : M A := fun w => (Ok a, w).

Definition raise {A : Type} (e : exn) : M A := fun w => (Err e, w).

Definition bind {A B : Type} (m : M A) (f : A -> M B) : M B :=
  fun w =>
    match m w with
    | (Ok a, w') => f a w'
    | (Err e, w') => (Err e, w')
    end.

Notation "'let*' x ':=' c1 'in' c2" := (bind c1 (fun x => c2))
  (at level 10, x name, c1 at level 100, c2 at level 200).
Notation "c1 ';;;' c2" := (bind c1 (fun _ => c2))
  (at level 100, c2 at level 200, right associativity).

Definition emit (e : event) : M unit :=
  fun w => (Ok tt, set_trace (trace w ++ [e]) w).

Fixpoint for_each {A : Type} (l : list A) (f : A -> M unit) : M unit :=
  match l with
  | [] => ret tt
  | x :: l' => f x ;;; for_each l' f
  end.

Definition alloc (o : obj) : M loc :=
  fun w => (Ok (length (heap w)), set_heap (heap w ++ [o]) w).

Definition path_exists (p : string) : M bool :=
  fun w => (Ok (bool_decide (p ∈ fs w)), w).

Definition makedirs (p : string) : M unit :=
  emit (EvMakedirs p) ;;;
  fun w => (Ok tt, set_fs ({[p]} ∪ fs w) w).

(** ** Strings *)

Definition upper_ascii (a : ascii) : ascii :=
  let n := nat_of_ascii a in
  if (97 <=? n)%nat && (n <=? 122)%nat then ascii_of_nat (n - 32) else a.

Fixpoint upper (s : string) : string :=
  match s with
  | EmptyString => EmptyString
  | String a s' => String (upper_ascii a) (upper s')
  end.

Definition endswith (s ext : string) : bool :=
  (String.length ext <=? String.length s)%nat &&
  String.eqb
    (substring (String.length s - String.length ext) (String.length ext) s) ext.

Fixpoint spaces (n : nat) : string :=
  match n with
  | O => EmptyString
  | S n' => String " " (spaces n')
  end.

(** ['{:>n}'.format(s)] *)
Definition rjust (n : nat) (s : string) : string :=
  spaces (n - String.length s) ++ s.

(** ** What the sources import *)

(** The constants, helpers and libraries that [core.py] and [cli.py] use
    and that are not among the sources. *)
Class Env := {
  (** [constants.DEFAULT_CONFIG] *)
  DEFAULT_CONFIG : val;
  (** [constants.UNIHAN_CONFIG] *)
  UNIHAN_CONFIG : val;
  (** [utils.import_string]: the class a dotted path names, if any *)
  import_string : string -> option pyclass;
  (** [config.expand_config], with the directories of
      [AppDirs("cihai", "cihai team")] *)
  expand_config : val -> val;
  (** [AppDirs("cihai", "cihai team").user_data_dir] *)
  user_data_dir : string;
  (** [os.path.abspath] *)
  abspath : string -> string;
  (** [kaptan.Kaptan().import_config(path).get()], if the file reads *)
  import_config : string -> option val;
  (** [_compat.PY2] *)
  PY2 : bool;
  (** [value.encode('utf-8')] *)
  encode_utf8 : string -> string;
  (** the rows the UNIHAN archive holds *)
  unihan_table : table
}.

Section program.
Context {E : Env}.

(** ** Logging *)

(** [logging._checkLevel] on a level name. *)
Definition checkLevel (level : string) : option Z :=
  dict_get level
    [("CRITICAL", 50%Z); ("FATAL", 50%Z); ("ERROR", 40%Z); ("WARN", 30%Z);
     ("WARNING", 30%Z); ("INFO", 20%Z); ("DEBUG", 10%Z); ("NOTSET", 0%Z)].

(** A logger nobody has touched: the root logger is at WARNING, any other
    at NOTSET, and neither has handlers. *)
Definition fresh_logger (name : string) : logger :=
  if String.eqb name "root" then Logger 30 [] else Logger 0 [].

Definition get_logger (name : string) (w : world) : logger :=
  default (fresh_logger name) (loggers w !! name).

(** [if not logger: logger = logging.getLogger()] *)
Definition logger_name (logger : option string) : string :=
  match logger with Some n => n | None => "root" end.

(** [cli.setup_logger]; [logger] is the name of the logger passed, [None]
    where the argument is left out. *)
Definition setup_logger (logger : option string) (level : string) : M unit :=
  let name := logger_name logger in
  fun w =>
    let lg := get_logger name w in
    match log_handlers lg with
    | [] =>
        let channel := StreamHandler in
        match checkLevel level with
        | None => (Err (ValueError ("Unknown level: " ++ level)), w)
        | Some n =>
            (Ok tt,
             set_loggers
               (<[name := Logger n (log_handlers lg ++ [channel])]> (loggers w))
               w)
        end
    | _ :: _ => (Ok tt, w)
    end.

(** The world after [setup_logger] has been called once for each of
    [levels] on the same logger, whatever each call returned. *)
Fixpoint setup_logger_calls (logger : option string) (levels : list string)
    (w : world) : world :=
  match levels with
  | [] => w
  | level :: levels' =>
      setup_logger_calls logger levels' (snd (setup_logger logger level w))
  end.

(** ** Attributes *)

Definition truthy (v : val) : bool :=
  match v with
  | VNone => false
  | VBool b => b
  | VInt z => negb (Z.eqb z 0)
  | VStr s => negb (String.eqb s "")
  | VDict d => match d with [] => false | _ => true end
  | _ => true
  end.

Definition cell (c : option string) : val :=
  match c with
  | None => VNone
  | Some s => VStr s
  end.

(** The attributes [class Cihai] defines. *)
Definition Cihai_methods : list string :=
  ["__init__"; "bootstrap"; "add_dataset"; "from_file"].

Definition Cihai_class_attr (self : loc) (name : string) : option val :=
  if String.eqb name "default_config" then Some DEFAULT_CONFIG
  else if mem_string name Cihai_methods then Some (VMethod self name)
  else None.

(** Modelled from the spec: the database handle of [db.py], which is not
    among the sources, "wraps a connection to a relational store and
    exposes reflected table-backed record classes": the handle has a
    [base] whose [classes] are the reflected tables, a [session] to query
    them, its [metadata], and [reflect_db] to reflect the schema again. *)
Definition Database_attr (l : loc) (name : string) : option val :=
  if mem_string name ["base"; "session"; "metadata"] then Some (VSub l name)
  else if String.eqb name "reflect_db" then Some (VMethod l name)
  else None.

Definition of_option {A : Type} (e : exn) (o : option A) : M A :=
  match o with
  | Some a => ret a
  | None => raise e
  end.

(** [getattr(v, name)]: the instance dict first, then the class.  Classes
    are plain ones: no descriptors, no [__getattr__]. *)
Definition getattr (v : val) (name : string) : M val :=
  fun w =>
    match v with
    | VRef l =>
        match heap w !! l with
        | Some (OCihai d) =>
            match dict_get name d with
            | Some x => (Ok x, w)
            | None =>
                of_option (AttributeError OnCihai name) (Cihai_class_attr l name) w
            end
        | Some (OInstance cls d) =>
            match dict_get name d with
            | Some x => (Ok x, w)
            | None =>
                if String.eqb name "add_plugin" && cls_dataset cls
                then (Ok (VMethod l name), w)
                else (Err (AttributeError (OnInstance (cls_name cls)) name), w)
            end
        | Some (ODatabase _) =>
            of_option (AttributeError OnDatabase name) (Database_attr l name) w
        | None => (Err (AttributeError OnValue name), w)
        end
    | VSub l part =>
        if String.eqb part "base" && String.eqb name "classes"
        then (Ok (VSub l "classes"), w)
        else if String.eqb part "classes" then
          match heap w !! l with
          | Some (ODatabase reflected) =>
              match dict_get name reflected with
              | Some cols => (Ok (VMapped name cols), w)
              | None => (Err (AttributeError OnDatabase name), w)
              end
          | _ => (Err (AttributeError OnValue name), w)
          end
        else (Err (AttributeError OnDatabase name), w)
    | VRecord cols r =>
        match dict_get name r with
        | Some c => (Ok (cell c), w)
        | None => (Err (AttributeError OnValue name), w)
        end
    | VNone => (Err (AttributeError OnNone name), w)
    | _ => (Err (AttributeError OnValue name), w)
    end.

(** [setattr(v, name, x)] on an object with an instance dict. *)
Definition setattr (v : val) (name : string) (x : val) : M unit :=
  fun w =>
    match v with
    | VRef l =>
        match heap w !! l with
        | Some (OCihai d) =>
            (Ok tt, set_heap (<[l := OCihai (dict_set name x d)]> (heap w)) w)
        | Some (OInstance cls d) =>
            (Ok tt,
             set_heap (<[l := OInstance cls (dict_set name x d)]> (heap w)) w)
        | _ => (Err (AttributeError OnValue name), w)
        end
    | _ => (Err (AttributeError OnValue name), w)
    end.

(** [d.get(key, default)] *)
Definition dict_get_default (d : val) (key : string) (dflt : val) : M val :=
  match d with
  | VDict items => ret (default dflt (dict_get key items))
  | _ => raise (AttributeError OnValue "get")
  end.

(** [d.items()] *)
Definition dict_items (d : val) : M (list (string * val)) :=
  match d with
  | VDict items => ret items
  | _ => raise (AttributeError OnValue "items")
  end.

(** [isinstance(v, extend.SQLAlchemyMixin)] *)
Definition isinstance_SQLAlchemyMixin (v : val) : M bool :=
  fun w =>
    match v with
    | VRef l =>
        match heap w !! l with
        | Some (OInstance cls _) => (Ok (cls_sqlalchemy cls), w)
        | _ => (Ok false, w)
        end
    | _ => (Ok false, w)
    end.

(** ** core.py *)

(** [import_string(s)] where [_cls] is a string; any other [_cls] stands. *)
Definition resolve_class (_cls : val) : M val :=
  match _cls with
  | VStr s =>
      emit (EvImport s) ;;;
      let* c := of_option (ImportError s) (import_string s) in
      ret (VClass c)
  | _ => ret _cls
  end.

(** [_cls()]: a class gives a new instance, with an empty instance dict;
    values that are no classes are taken not to be callable. *)
Definition instantiate (_cls : val) : M val :=
  match _cls with
  | VClass c =>
      if cls_instantiable c then
        let* l := alloc (OInstance c []) in ret (VRef l)
      else raise (TypeError ("cannot instantiate " ++ cls_name c))
  | _ => raise (TypeError "object is not callable")
  end.

Definition ref_of (v : val) : loc :=
  match v with VRef l => l | _ => O end.

(** [_cls] is the dotted path of the class [cls], or is [cls] itself. *)
Definition names_class (_cls : val) (cls : pyclass) : Prop :=
  match _cls with
  | VStr s => import_string s = Some cls
  | VClass c => c = cls
  | _ => False
  end.

(** The import that [resolve_class] makes for [_cls]. *)
Definition import_events (_cls : val) : list event :=
  match _cls with
  | VStr s => [EvImport s]
  | _ => []
  end.

(** [Cihai.add_dataset] *)
Definition add_dataset (self : loc) (_cls : val) (namespace : string) : M unit :=
  let* _cls := resolve_class _cls in
  let* inst := instantiate _cls in
  setattr (VRef self) namespace inst ;;;
  emit (EvAddDataset namespace (ref_of inst)) ;;;
  let* dataset := getattr (VRef self) namespace in
  let* mixin := isinstance_SQLAlchemyMixin dataset in
  if mixin then
    let* sql := getattr (VRef self) "sql" in
    setattr dataset "sql" sql
  else ret tt.

(** Modelled from the spec: [Dataset.add_plugin] of [extend.py], which is
    not among the sources.  The registry "dynamically imports classes by
    dotted path string and attaches them as named attributes"; a plugin is
    attached to its dataset. *)
Definition add_plugin (dataset : loc) (_cls : val) (namespace : string) : M unit :=
  let* _cls := resolve_class _cls in
  let* inst := instantiate _cls in
  setattr (VRef dataset) namespace inst ;;;
  emit (EvAddPlugin dataset namespace (ref_of inst)).

(** [f(class_string, namespace)] for the [f] that an attribute lookup gave. *)
Definition call_method2 (f : val) (class_string : val) (namespace : string)
  : M unit :=
  match f with
  | VMethod l name =>
      if String.eqb name "add_dataset" then add_dataset l class_string namespace
      else if String.eqb name "add_plugin" then add_plugin l class_string namespace
      else raise (TypeError (name ++ ": wrong arguments"))
  | _ => raise (TypeError "object is not callable")
  end.

(** The first loop of [Cihai.bootstrap]: the datasets. *)
Definition load_datasets (self : loc) : M unit :=
  let* config := getattr (VRef self) "config" in
  let* datasets := dict_get_default config "datasets" (VDict []) in
  let* items := dict_items datasets in
  for_each items (fun '(namespace, class_string) =>
    let* f := getattr (VRef self) "add_dataset" in
    call_method2 f class_string namespace).

(** One group of the second loop: the plugins of one dataset. *)
Definition load_plugin_group (self : loc) (group : string * val) : M unit :=
  let '(dataset, plugins) := group in
  let* items := dict_items plugins in
  for_each items (fun '(namespace, class_string) =>
    let* d := getattr (VRef self) dataset in
    let* f := getattr d "add_plugin" in
    call_method2 f class_string namespace).

(** The second loop of [Cihai.bootstrap]: the plugins. *)
Definition load_plugins (self : loc) : M unit :=
  let* config := getattr (VRef self) "config" in
  let* plugins := dict_get_default config "plugins" (VDict []) in
  let* groups := dict_items plugins in
  for_each groups (load_plugin_group self).

(** [Cihai.bootstrap] *)
Definition bootstrap (self : loc) : M unit :=
  load_datasets self ;;;
  load_plugins self.

(** What [Cihai.__init__] holds in [self.config] before the templates are
    expanded. *)
Definition merged_config (config : val) (unihan : bool) : val :=
  let config := match config with VNone => VDict [] | _ => config end in
  let merged := merge_dict DEFAULT_CONFIG config in
  if unihan then merge_dict UNIHAN_CONFIG merged else merged.

Definition reflect (s : list (string * table)) : list (string * list string) :=
  map (fun '(name, t) => (name, tbl_columns t)) s.

(** Modelled from the spec: [Database(config)] of [db.py]; the handle
    reflects the schema of the store as it is when the handle is made. *)
Definition Database (config : val) : M val :=
  fun w =>
    let l := length (heap w) in
    (Ok (VRef l),
     set_trace (trace w ++ [EvDatabase l])
       (set_heap (heap w ++ [ODatabase (reflect (store w))]) w)).

(** [Cihai(config, unihan)] *)
Definition Cihai_new (config : val) (unihan : bool) : M loc :=
  let* self := alloc (OCihai []) in
  setattr (VRef self) "config" (merged_config config unihan) ;;;
  emit (EvMergeConfig (merged_config config unihan)) ;;;
  let* c := getattr (VRef self) "config" in
  setattr (VRef self) "config" (expand_config c) ;;;
  emit EvExpandConfig ;;;
  let* ex := path_exists user_data_dir in
  (if negb ex then makedirs user_data_dir else ret tt) ;;;
  let* c := getattr (VRef self) "config" in
  let* sql := Database c in
  setattr (VRef self) "sql" sql ;;;
  bootstrap self ;;;
  ret self.

(** The world in which [__init__] calls [self.bootstrap()]. *)
Definition before_bootstrap (config : val) (unihan : bool) (w : world) : world :=
  let self := length (heap w) in
  let ex := bool_decide (user_data_dir ∈ fs w) in
  World
    (heap w ++ [OCihai [("config", expand_config (merged_config config unihan));
                        ("sql", VRef (S self))];
                ODatabase (reflect (store w))])
    (if ex then fs w else {[user_data_dir]} ∪ fs w)
    (loggers w) (store w)
    (trace w ++ [EvMergeConfig (merged_config config unihan); EvExpandConfig]
       ++ (if ex then [] else [EvMakedirs user_data_dir])
       ++ [EvDatabase (S self)]).

Definition config_extensions : list string := ["json"; "yml"; "yaml"; "ini"].

(** [Cihai.from_file] *)
Definition from_file (config_path : option string) : M loc :=
  let* config :=
    match config_path with
    | Some p =>
        if negb (String.eqb p "") then
          let* ex := path_exists p in
          if negb ex then
            raise (CihaiException (abspath p ++ " does not exist."))
          else if negb (existsb (endswith p) config_extensions) then
            raise (CihaiException
                     (abspath p ++ " does not have a yaml,yml,json,ini extend."))
          else
            let* custom_config := of_option (ConfigError p) (import_config p) in
            ret (merge_dict (VDict []) custom_config)
        else ret (VDict [])
    | None => ret (VDict [])
    end in
  Cihai_new config true.

(** ** cli.py *)

(** Modelled from the spec: [bootstrap.bootstrap_unihan], which is not
    among the sources, "downloads a dataset archive, extracts it, and
    bulk-loads rows into the store if not already present". *)
Definition bootstrap_unihan (metadata options : val) : M unit :=
  match metadata with
  | VSub l part =>
      if String.eqb part "metadata" then
        emit EvBootstrapUnihan ;;;
        fun w =>
          match dict_get "Unihan" (store w) with
          | Some _ => (Ok tt, w)
          | None => (Ok tt, set_store (dict_set "Unihan" unihan_table (store w)) w)
          end
      else raise (AttributeError OnValue "tables")
  | _ => raise (AttributeError OnValue "tables")
  end.

(** [r()] for the [r] that the lookup of [reflect_db] gave: the method of
    a database handle reflects the store again. *)
Definition call_reflect_db (r : val) : M unit :=
  match r with
  | VMethod l name =>
      if String.eqb name "reflect_db" then
        emit EvReflectDb ;;;
        fun w =>
          (Ok tt, set_heap (<[l := ODatabase (reflect (store w))]> (heap w)) w)
      else raise (TypeError (name ++ ": wrong arguments"))
  | _ => raise (TypeError "object is not callable")
  end.

(** [click.echo] *)
Definition echo (line : string) : M unit := emit (EvEcho line).

(** The callback of the command group [cli]; the result is the object put
    in [ctx.obj['c']]. *)
Definition cli (config : option string) (log_level : string) : M val :=
  emit (EvSetupLogger (upper log_level)) ;;;
  setup_logger None (upper log_level) ;;;
  let* c :=
    match config with
    | Some p =>
        if negb (String.eqb p "") then from_file config else Cihai_new VNone true
    | None => Cihai_new VNone true
    end in
  let c := VRef c in
  emit EvStoreCheck ;;;
  let* is_bootstrapped := getattr c "is_bootstrapped" in
  (if negb (truthy is_bootstrapped) then
     echo "Bootstrapping Unihan database" ;;;
     let* metadata := getattr c "metadata" in
     let* config := getattr c "config" in
     let* options := dict_get_default config "unihan_options" (VDict []) in
     bootstrap_unihan metadata options ;;;
     let* r := getattr c "reflect_db" in
     call_reflect_db r
   else ret tt) ;;;
  ret c.

Definition row_matches (char : string) (r : row) : bool :=
  match dict_get "char" r with
  | Some (Some s) => String.eqb s char
  | _ => false
  end.

(** [session.query(cls).filter_by(char=char).first()]: the first row of
    the table of [cls] whose [char] is [char], or [None]. *)
Definition query_first (session cls : val) (char : string) : M val :=
  match session, cls with
  | VSub l part, VMapped name cols =>
      if String.eqb part "session" then
        emit (EvQuery char) ;;;
        if mem_string "char" cols then
          fun w =>
            match dict_get name (store w) with
            | Some t =>
                match List.find (row_matches char) (tbl_rows t) with
                | Some r => (Ok (VRecord cols r), w)
                | None => (Ok VNone, w)
                end
            | None => (Err (DatabaseError ("no such table: " ++ name)), w)
            end
        else raise (DatabaseError ("no property char on " ++ name))
      else raise (AttributeError OnValue "query")
  | _, _ => raise (AttributeError OnValue "query")
  end.

(** [query.__table__.columns._data.keys()] *)
Definition table_columns (query : val) : M (list string) :=
  match query with
  | VRecord cols _ => ret cols
  | VNone => raise (AttributeError OnNone "__table__")
  | _ => raise (AttributeError OnValue "__table__")
  end.

Definition text_of (v : val) : string :=
  match v with
  | VStr s => s
  | _ => ""
  end.

(** ['{:>30} {:>60}'.format(c, value)] *)
Definition format_line (c value : string) : string :=
  rjust 30 c ++ " " ++ rjust 60 value.

(** The lines that [command_info] prints for a row. *)
Fixpoint printed_lines (cols : list string) (r : row) : list string :=
  match cols with
  | [] => []
  | c :: cols' =>
      match dict_get c r with
      | Some (Some v) =>
          if String.eqb v "" then printed_lines cols' r
          else format_line c (if PY2 then encode_utf8 v else v)
               :: printed_lines cols' r
      | _ => printed_lines cols' r
      end
  end.

(** [cli.command_info], on the object in [ctx.obj['c']]. *)
Definition command_info (c : val) (char : string) : M unit :=
  let* base := getattr c "base" in
  let* classes := getattr base "classes" in
  let* Unihan := getattr classes "Unihan" in
  let* session := getattr c "session" in
  let* query := query_first session Unihan char in
  let* columns := table_columns query in
  for_each columns (fun c =>
    let* value := getattr query c in
    if truthy value then
      let value := if PY2 then encode_utf8 (text_of value) else text_of value in
      emit (EvPrint (format_line c value))
    else ret tt).

(** [cihai [-c config] [--log_level level] info char]: click checks that
    the path given to [-c] exists, then runs the callback of the group,
    then the command. *)
Definition main (config : option string) (log_level char : string) : M unit :=
  emit EvParseFlags ;;;
  (match config with
   | Some p =>
       let* ex := path_exists p in
       if ex then ret tt else raise (UsageError ("Path does not exist: " ++ p))
   | None => ret tt
   end) ;;;
  let* c := cli config log_level in
  command_info c char.

(** The place of an event in the order the steps are taken. *)
Definition phase (e : event) : nat :=
  match e with
  | EvParseFlags => 0
  | EvSetupLogger _ => 1
  | EvMergeConfig _ => 2
  | EvExpandConfig => 3
  | EvMakedirs _ => 4
  | EvDatabase _ => 5
  | EvImport _ => 6
  | EvAddDataset _ _ => 6
  | EvAddPlugin _ _ _ => 6
  | EvStoreCheck => 7
  | EvEcho _ => 8
  | EvBootstrapUnihan => 9
  | EvReflectDb => 10
  | EvQuery _ => 11
  | EvPrint _ => 12
  end.

(** ** The order of a run *)

(** Events come in the order of [ph]: an earlier event has no later phase. *)
Definition in_order (ph : event -> nat) (t : list event) : Prop :=
  forall i j e1 e2,
    i < j -> t !! i = Some e1 -> t !! j = Some e2 -> ph e1 <= ph e2.

(** [m] writes nothing in the trace. *)
Definition silent {A} (m : M A) : Prop :=
  forall w, trace (snd (m w)) = trace w.

(** [m] writes events in the order of [phase], all of them in the phases
    from [lo] to [hi]. *)
Definition steps {A} (lo hi : nat) (m : M A) : Prop :=
  forall w, exists t,
    trace (snd (m w)) = trace w ++ t /\
    in_order phase t /\
    Forall (fun e => lo <= phase e /\ phase e <= hi) t.




(** ** Reading a run *)

(** [triple P m Q R]: from a world where [P] holds, [m] returns a value
    and a world where [Q] holds, or raises an exception in a world where
    [R] holds. *)
Definition triple {A : Type} (P : world -> Prop) (m : M A)
    (Q : A -> world -> Prop) (R : exn -> world -> Prop) : Prop :=
  forall w, P w ->
    match m w with
    | (Ok a, w') => Q a w'
    | (Err e, w') => R e w'
    end.

(** The exception is not "the Cihai object has no attribute ...". *)
Definition not_Cihai_error (e : exn) : Prop :=
  forall k, e <> AttributeError OnCihai k.

Definition not_method (v : val) : Prop :=
  match v with
  | VMethod _ _ => False
  | _ => True
  end.

(** An object that a dataset or plugin slot may hold: a database handle,
    or an instance none of whose attributes is a bound method. *)
Definition plain_object (o : obj) : Prop :=
  match o with
  | OCihai _ => False
  | ODatabase _ => True
  | OInstance _ d => forall k v, dict_get k d = Some v -> not_method v
  end.

Definition is_dataset_step (e : event) : Prop :=
  match e with
  | EvImport _ | EvAddDataset _ _ => True
  | _ => False
  end.

Definition is_plugin_step (e : event) : Prop :=
  match e with
  | EvImport _ | EvAddPlugin _ _ _ => True
  | _ => False
  end.

(** The namespaces that the events of a trace attach datasets under. *)
Fixpoint attached (t : list event) : list string :=
  match t with
  | [] => []
  | EvAddDataset namespace _ :: t' => namespace :: attached t'
  | _ :: t' => attached t'
  end.

(** The locations a run of [bootstrap] may hold references to: the
    database handle and what has been allocated since the run began. *)
Definition fresh (n0 db l : loc) : Prop := l = db \/ n0 <= l.

(** The attributes of the application object during the dataset loop:
    [sql] and [config] are there, [config] is the configuration or has
    been overwritten, and any other attribute is an instance that an event
    of the trace attached. *)
Definition self_dict_ok (n0 db : loc) (cfg : list (string * val))
    (t : list event) (d : list (string * val)) : Prop :=
  is_Some (dict_get "sql" d) /\
  is_Some (dict_get "config" d) /\
  forall k v, dict_get k d = Some v ->
    (k = "config" /\ v = VDict cfg) \/
    (exists l, v = VRef l /\ fresh n0 db l /\
               ((k = "sql" /\ l = db) \/ In (EvAddDataset k l) t)).

(** The heap during a run of [bootstrap]. *)
Definition heap_ok (n0 db self : loc) (w : world) : Prop :=
  n0 <= length (heap w) /\ self < n0 /\ self <> db /\
  (exists r, heap w !! db = Some (ODatabase r)) /\
  forall l o, fresh n0 db l -> heap w !! l = Some o -> plain_object o.

(** The state of the dataset loop after the namespaces [L]. *)
Definition stateA (n0 db self : loc) (cfg : list (string * val))
    (T : list event) (L : list string) (w : world) : Prop :=
  heap_ok n0 db self w /\
  exists d t,
    heap w !! self = Some (OCihai d) /\
    trace w = T ++ t /\
    Forall is_dataset_step t /\
    attached t = L /\
    self_dict_ok n0 db cfg t d /\
    (forall k, In k L -> is_Some (dict_get k d)).

(** What the plugin loop may write in the trace: imports, and plugins
    added to an instance that the application object holds under one of
    [keys]. *)
Definition plugin_event_ok (db : loc) (d1 : list (string * val))
    (keys : list string) (e : event) : Prop :=
  match e with
  | EvImport _ => True
  | EvAddPlugin ds _ _ =>
      ds <> db /\ exists key, In key keys /\ dict_get key d1 = Some (VRef ds)
  | _ => False
  end.

(** The state of the plugin loop: the application object stays as the
    dataset loop left it. *)
Definition stateB (n0 db self : loc) (d1 : list (string * val))
    (keys : list string) (T : list event) (w : world) : Prop :=
  heap_ok n0 db self w /\
  heap w !! self = Some (OCihai d1) /\
  exists t, trace w = T ++ t /\ Forall (plugin_event_ok db d1 keys) t.

(** The attributes of the application object after the dataset loop. *)
Definition attrs_ok (n0 db : loc) (cfg : list (string * val))
    (d1 : list (string * val)) : Prop :=
  forall k v, dict_get k d1 = Some v ->
    (k = "config" /\ v = VDict cfg) \/ (exists l, v = VRef l /\ fresh n0 db l).

(** The application object at [self] holds an object under every
    attribute other than [config]. *)
Definition holds_objects (self : loc) (w : world) : Prop :=
  exists d1,
    heap w !! self = Some (OCihai d1) /\
    forall k v, dict_get k d1 = Some v -> k = "config" \/ exists l, v = VRef l.

(** The items of the mapping under [key] in a configuration dict. *)
Definition mapping_items (key : string) (cfg : list (string * val))
  : list (string * val) :=
  match dict_get key cfg with
  | Some (VDict d) => d
  | _ => []
  end.

End program.

(** ** A sample installation *)

Definition Unihan_class : pyclass := PyClass "cihai.unihan.Unihan" true true true.
Definition Plain_class : pyclass := PyClass "plain.Plain" true false false.
Definition Variants_class : pyclass :=
  PyClass "cihai.unihan.UnihanVariants" true false false.

Definition sample_default_config : val :=
  VDict [("debug", VBool false);
         ("database", VDict [("url", VStr "sqlite:///{user_data_dir}/cihai.db")])].

Definition sample_unihan_config : val :=
  VDict [("datasets", VDict [("unihan", VStr "cihai.unihan.Unihan")])].

Definition sample_unihan_table : table :=
  Table ["char"; "ucn"; "kDefinition"; "kMandarin"]
    [[("char", Some "A"); ("ucn", Some "U+0041"); ("kDefinition", Some "first");
      ("kMandarin", None)];
     [("char", Some "B"); ("ucn", Some "U+0042"); ("kDefinition", Some "");
      ("kMandarin", Some "bi")]].

Definition sample_env : Env := {|
  DEFAULT_CONFIG := sample_default_config;
  UNIHAN_CONFIG := sample_unihan_config;
  import_string := fun s =>
    dict_get s [("cihai.unihan.Unihan", Unihan_class);
                ("plain.Plain", Plain_class);
                ("cihai.unihan.UnihanVariants", Variants_class)];
  expand_config := fun c => c;
  user_data_dir := "/home/u/.local/share/cihai";
  abspath := fun p => p;
  import_config := fun p =>
    dict_get p [("/etc/cihai.yml", VDict [("debug", VBool true)]);
                ("/etc/cihai.txt", VDict [])];
  PY2 := false;
  encode_utf8 := fun s => s;
  unihan_table := sample_unihan_table
|}.

Definition empty_world : world := World [] ∅ ∅ [] [].


(** A configuration with a dataset and a plugin for it. *)
Definition plugin_config : list (string * val) :=
  [("datasets", VDict [("unihan", VStr "cihai.unihan.Unihan")]);
   ("plugins",
    VDict [("unihan",
            VDict [("variants", VStr "cihai.unihan.UnihanVariants")])])].

Definition plugin_world : world :=
  World [OCihai [("config", VDict plugin_config); ("sql", VRef 1)];
         ODatabase []]
    ∅ ∅ [] [].

(** A configuration whose plugins name a dataset that is not configured. *)
Definition orphan_plugin_config : list (string * val) :=
  [("datasets", VDict [("unihan", VStr "cihai.unihan.Unihan")]);
   ("plugins",
    VDict [("kanji",
            VDict [("variants", VStr "cihai.unihan.UnihanVariants")])])].

Definition orphan_plugin_world : world :=
  World [OCihai [("config", VDict orphan_plugin_config); ("sql", VRef 1)];
         ODatabase []]
    ∅ ∅ [] [].

(** An installation whose store has been bootstrapped. *)
Definition bootstrapped_world : world :=
  World [] {["/etc/cihai.yml"; "/etc/cihai.txt"]} ∅
    [("Unihan", sample_unihan_table)] [].

(** A database handle that reflects the bootstrapped store. *)
Definition handle_world : world :=
  World [ODatabase [("Unihan", tbl_columns sample_unihan_table)]] ∅ ∅
    [("Unihan", sample_unihan_table)] [].

Definition sample_world : world :=
  World [] {["/etc/cihai.yml"; "/etc/cihai.txt"]} ∅ [] [].

(** The application object that [Cihai()] makes on the bootstrapped
    installation, and its attributes. *)
Definition constructed_world : world :=
  snd (@Cihai_new sample_env VNone true bootstrapped_world).

Definition constructed_attrs : list (string * val) :=
  match heap constructed_world !! 0 with
  | Some (OCihai d) => d
  | _ => []
  end.

(** ** Frames *)



(** [w'] is [w] with the events [t] added to its trace, and nothing else
    changed. *)
Definition logged (w : world) (t : list event) (w' : world) : Prop :=
  w' = set_trace (trace w ++ t) w.

(** ** Plugin groups *)

(** What [bootstrap] needs of a plugin group to get past it: the group is
    a mapping, and where it has a plugin its key is one of [datasets], or
    is [sql]. *)
Definition group_loadable (datasets : list string) (group : string * val)
  : Prop :=
  (exists items, snd group = VDict items) /\
  (snd group <> VDict [] -> In (fst group) datasets \/ fst group = "sql").

(** The attributes of the application object when the dataset loop is
    through: [config], [sql], and the datasets. *)
Definition attrs_known (cfg : list (string * val)) (datasets : list string)
    (d1 : list (string * val)) : Prop :=
  forall k v, dict_get k d1 = Some v ->
    (k = "config" /\ v = VDict cfg) \/ k = "sql" \/ In k datasets.

(** ** test.py *)

(** The truth value of what [os.environ.get] gave: [None] and the empty
    string are false. *)
Definition is_set (x : option string) : bool :=
  match x with
  | Some s => negb (String.eqb s "")
  | None => false
  end.

(** [x or y] *)
Definition or_default (x : option string) (y : string) : string :=
  match x with
  | Some s => if is_set x then s else y
  | None => y
  end.

Definition database_url_default : string := "sqlite:///:memory:".

Definition data_path_default : string := "".

(** [os.environ] is the environment when the module is imported. *)
Definition database_url_environ (environ : gmap string string) : option string :=
  environ !! "DATABASE_URL".

Definition data_path_environ (environ : gmap string string) : option string :=
  environ !! "DATA_PATH".

Definition database_url (environ : gmap string string) : string :=
  or_default (database_url_environ environ) database_url_default.

Definition data_path (environ : gmap string string) : string :=
  or_default (data_path_environ environ) data_path_default.

(** One component more in [posixpath.join]: a component that starts with
    the separator starts the path anew; any other is added, after a
    separator unless the path is empty or ends in one. *)
Definition join_component (path b : string) : string :=
  if String.prefix "/" b then b
  else if String.eqb path "" || endswith path "/" then path ++ b
  else path ++ "/" ++ b.

(** [os.path.join(a, *p)] *)
Definition path_join (a : string) (p : list string) : string :=
  fold_left join_component p a.

(** [test.get_datafile]; [here] is
    [os.path.abspath(os.path.dirname(__file__))], and [fallback] is what
    the import of [get_datafile] from [..util] and the call of it give. *)
Definition get_datafile (environ : gmap string string) (here : string)
    (fallback : string -> result string) (filename : string) : result string :=
  if is_set (data_path_environ environ)
  then Ok (path_join here ["fixtures/"; filename])
  else fallback filename.

(** ** Exceptions *)


(** ** Lemmas on dicts and on the merge *)

Section val_induction.
Variable P : val -> Prop.
Hypothesis HNone : P VNone.
Hypothesis HBool : forall b, P (VBool b).
Hypothesis HInt : forall z, P (VInt z).
Hypothesis HStr : forall s, P (VStr s).
Hypothesis HClass : forall c, P (VClass c).
Hypothesis HRef : forall l, P (VRef l).
Hypothesis HMethod : forall l n, P (VMethod l n).
Hypothesis HSub : forall l n, P (VSub l n).
Hypothesis HMapped : forall n c, P (VMapped n c).
Hypothesis HRecord : forall c r, P (VRecord c r).
Hypothesis HDict : forall d, Forall (fun kv => P (snd kv)) d -> P (VDict d).

End val_induction.




Lemma dict_get_set_eq {A} k (v : A) d : dict_get k (dict_set k v d) = Some v.
Proof.
  induction d as [|[k' v'] d IH]; simpl.
  - by rewrite String.eqb_refl.
  - destruct (String.eqb k k') eqn:E; simpl; rewrite ?String.eqb_refl, ?E; done.
Qed.

Lemma dict_get_set_ne {A} k k' (v : A) d :
  k <> k' -> dict_get k' (dict_set k v d) = dict_get k' d.
Proof.
  intros Hne. induction d as [|[k0 v0] d IH]; simpl.
  - destruct (String.eqb k' k) eqn:E; [|done].
    apply String.eqb_eq in E. congruence.
  - destruct (String.eqb k k0) eqn:E; simpl.
    + apply String.eqb_eq in E. subst k0.
      destruct (String.eqb k' k) eqn:E'; [|done].
      apply String.eqb_eq in E'. congruence.
    + by rewrite IH.
Qed.


Lemma get_none_mem_string {A} k (d : list (string * A)) :
  dict_get k d = None -> mem_string k (dict_keys d) = false.
Proof.
  induction d as [|[k' v] d IH]; simpl; [done|].
  destruct (String.eqb k k'); simpl; [discriminate|exact IH].
Qed.








Lemma get_path_not_mapping k p v :
  is_mapping v = false -> get_path (k :: p) v = None.
Proof. by destruct v. Qed.







Section merged_config_facts.
Context {E : Env}.


End merged_config_facts.



(** ** The monad *)

Lemma bind_ok {A B} (m : M A) (f : A -> M B) w a w' :
  m w = (Ok a, w') -> bind m f w = f a w'.
Proof. unfold bind. by intros ->. Qed.

Lemma bind_err {A B} (m : M A) (f : A -> M B) w e w' :
  m w = (Err e, w') -> bind m f w = (Err e, w').
Proof. unfold bind. by intros ->. Qed.

Section program_facts.
Context {E : Env}.

(** ** setup_logger *)

Lemma setup_logger_has_handlers logger level w :
  log_handlers (get_logger (logger_name logger) w) <> [] ->
  setup_logger logger level w = (Ok tt, w).
Proof.
  unfold setup_logger. destruct (log_handlers _); [done|reflexivity].
Qed.

Lemma get_logger_set name lg w :
  get_logger name (set_loggers (<[name := lg]> (loggers w)) w) = lg.
Proof. unfold get_logger. simpl. by rewrite lookup_insert_eq. Qed.

Lemma setup_logger_handlers logger level w :
  let before := log_handlers (get_logger (logger_name logger) w) in
  let after :=
    log_handlers (get_logger (logger_name logger)
                    (snd (setup_logger logger level w))) in
  after = before \/ (before = [] /\ after = [StreamHandler]).
Proof.
  unfold setup_logger. simpl.
  destruct (log_handlers (get_logger (logger_name logger) w)) eqn:Hh.
  - destruct (checkLevel level); simpl.
    + right. split; [done|]. by rewrite get_logger_set.
    + left. by rewrite Hh.
  - left. simpl. by rewrite Hh.
Qed.

Lemma setup_logger_calls_handlers logger levels w :
  let before := log_handlers (get_logger (logger_name logger) w) in
  let after :=
    log_handlers (get_logger (logger_name logger)
                    (setup_logger_calls logger levels w)) in
  after = before \/ (before = [] /\ after = [StreamHandler]).
Proof.
  revert w. induction levels as [|level levels IH]; intros w; simpl.
  - by left.
  - destruct (IH (snd (setup_logger logger level w))) as [H|[H1 H2]];
      destruct (setup_logger_handlers logger level w) as [H'|[H1' H2']];
      simpl in *.
    + left. congruence.
    + right. split; [done|congruence].
    + right. split; congruence.
    + rewrite H2' in H1. discriminate.
Qed.

(** C10.  A call of [setup_logger] on a logger that has a handler changes
    nothing, neither handlers nor level; and whatever calls are made on
    one logger, starting without handlers, they leave it with no handler
    or with the one stream handler of the first call that went through. *)
Theorem setup_logger_idempotent logger :
  (forall level w,
      log_handlers (get_logger (logger_name logger) w) <> [] ->
      setup_logger logger level w = (Ok tt, w)) /\
  (forall levels w,
      log_handlers (get_logger (logger_name logger) w) = [] ->
      let after :=
        log_handlers (get_logger (logger_name logger)
                        (setup_logger_calls logger levels w)) in
      after = [] \/ after = [StreamHandler]) /\
  (forall levels w,
      log_handlers (get_logger (logger_name logger) w) <> [] ->
      setup_logger_calls logger levels w = w).
Proof.
  split; [|split].
  - intros level w. apply setup_logger_has_handlers.
  - intros levels w H0. simpl.
    destruct (setup_logger_calls_handlers logger levels w) as [H|[_ H]];
      simpl in H.
    + left. congruence.
    + by right.
  - intros levels. induction levels as [|level levels IH]; intros w H; simpl.
    + reflexivity.
    + rewrite setup_logger_has_handlers by done. simpl. by apply IH.
Qed.

End program_facts.

Lemma setup_logger_idempotent_witness :
  let w1 := snd (@setup_logger None "INFO" empty_world) in
  log_handlers (get_logger "root" w1) = [StreamHandler] /\
  @setup_logger None "DEBUG" w1 = (Ok tt, w1) /\
  log_handlers
    (get_logger "root" (setup_logger_calls None ["bogus"; "INFO"; "DEBUG"] empty_world))
  = [StreamHandler].
Proof.
  intros w1.
  split; [reflexivity|split].
  - apply (proj1 (setup_logger_idempotent None)). vm_compute. discriminate.
  - destruct (proj1 (proj2 (setup_logger_idempotent None))
                ["bogus"; "INFO"; "DEBUG"] empty_world eq_refl) as [H|H].
    + vm_compute in H. discriminate.
    + exact H.
Defined.

Section from_file_facts.
Context {E : Env}.

(** C9.  For a non-empty path, [from_file] raises [CihaiException] when
    the path does not exist, whatever its extension, and raises
    [CihaiException] when the path exists and ends in none of json, yml,
    yaml, ini; in both cases the world is as it was: no object has been
    made.  Without a path, or with the empty one, it is [Cihai({})]. *)
Theorem from_file_checks :
  (forall p w,
      p <> "" ->
      p ∉ fs w ->
      from_file (Some p) w =
      (Err (CihaiException (abspath p ++ " does not exist.")), w)) /\
  (forall p w,
      p <> "" ->
      p ∈ fs w ->
      existsb (endswith p) config_extensions = false ->
      from_file (Some p) w =
      (Err (CihaiException
              (abspath p ++ " does not have a yaml,yml,json,ini extend.")), w)) /\
  from_file None = Cihai_new (VDict []) true /\
  from_file (Some "") = Cihai_new (VDict []) true.
Proof.
  split; [|split; [|split]].
  - intros p w Hp Hfs. unfold from_file.
    apply String.eqb_neq in Hp. rewrite Hp. simpl.
    unfold bind at 1. unfold bind at 1. unfold path_exists.
    by rewrite bool_decide_eq_false_2.
  - intros p w Hp Hfs Hext. unfold from_file.
    apply String.eqb_neq in Hp. rewrite Hp. simpl.
    unfold bind at 1. unfold bind at 1. unfold path_exists.
    rewrite bool_decide_eq_true_2 by done. simpl.
    unfold config_extensions in Hext. simpl in Hext. by rewrite Hext.
  - reflexivity.
  - reflexivity.
Qed.

End from_file_facts.

Lemma from_file_checks_witness :
  @from_file sample_env (Some "/etc/missing.yml") sample_world =
  (Err (CihaiException "/etc/missing.yml does not exist."), sample_world) /\
  @from_file sample_env (Some "/etc/missing.txt") sample_world =
  (Err (CihaiException "/etc/missing.txt does not exist."), sample_world) /\
  @from_file sample_env (Some "/etc/cihai.txt") sample_world =
  (Err (CihaiException
          "/etc/cihai.txt does not have a yaml,yml,json,ini extend."),
   sample_world).
Proof.
  destruct (@from_file_checks sample_env) as (Hmissing & Hext & _ & _).
  split; [|split].
  - apply (Hmissing "/etc/missing.yml" sample_world); [discriminate|].
    vm_compute. discriminate.
  - apply (Hmissing "/etc/missing.txt" sample_world); [discriminate|].
    vm_compute. discriminate.
  - apply (Hext "/etc/cihai.txt" sample_world); [discriminate| |reflexivity].
    vm_compute. reflexivity.
Defined.

Section add_dataset_facts.
Context {E : Env}.

Lemma getattr_world v n w : snd (getattr v n w) = w.
Proof.
  unfold getattr, of_option, ret, raise.
  repeat (case_match; simpl; try reflexivity).
Qed.

Lemma dict_get_set {A} k' k (v : A) d :
  dict_get k' (dict_set k v d) = if String.eqb k k' then Some v else dict_get k' d.
Proof.
  destruct (String.eqb k k') eqn:Ek.
  - apply String.eqb_eq in Ek. subst. apply dict_get_set_eq.
  - apply dict_get_set_ne. by apply String.eqb_neq.
Qed.

Lemma new_instance {A} _cls cls (k : val -> M A) w :
  names_class _cls cls ->
  cls_instantiable cls = true ->
  (let* c := resolve_class _cls in let* inst := instantiate c in k inst) w =
  k (VRef (length (heap w)))
    (World (heap w ++ [OInstance cls []]) (fs w) (loggers w) (store w)
       (trace w ++ import_events _cls)).
Proof.
  intros Hcls Hinst.
  destruct _cls; simpl in Hcls; try done.
  - unfold resolve_class, bind at 1, bind at 1, emit. simpl.
    rewrite Hcls. simpl. unfold bind at 1. simpl. rewrite Hinst.
    reflexivity.
  - subst c. unfold resolve_class, bind at 1, ret. simpl. rewrite Hinst.
    unfold bind at 1, alloc. simpl. by rewrite app_nil_r.
Qed.

Lemma setattr_Cihai l d n x w :
  heap w !! l = Some (OCihai d) ->
  setattr (VRef l) n x w =
  (Ok tt, set_heap (<[l := OCihai (dict_set n x d)]> (heap w)) w).
Proof. unfold setattr. by intros ->. Qed.

Lemma setattr_Instance l cls d n x w :
  heap w !! l = Some (OInstance cls d) ->
  setattr (VRef l) n x w =
  (Ok tt, set_heap (<[l := OInstance cls (dict_set n x d)]> (heap w)) w).
Proof. unfold setattr. by intros ->. Qed.

Lemma getattr_Cihai_dict l d n x w :
  heap w !! l = Some (OCihai d) ->
  dict_get n d = Some x ->
  getattr (VRef l) n w = (Ok x, w).
Proof. unfold getattr. by intros -> ->. Qed.



Lemma isinstance_Instance l cls d w :
  heap w !! l = Some (OInstance cls d) ->
  isinstance_SQLAlchemyMixin (VRef l) w = (Ok (cls_sqlalchemy cls), w).
Proof. unfold isinstance_SQLAlchemyMixin. by intros ->. Qed.

Lemma add_dataset_run self d _cls cls n w :
  heap w !! self = Some (OCihai d) ->
  names_class _cls cls ->
  cls_instantiable cls = true ->
  (cls_sqlalchemy cls = true -> n = "sql" \/ is_Some (dict_get "sql" d)) ->
  let l := length (heap w) in
  let d' := dict_set n (VRef l) d in
  let h := <[self := OCihai d']> (heap w ++ [OInstance cls []]) in
  add_dataset self _cls n w =
  (Ok tt,
   World
     (if cls_sqlalchemy cls
      then <[l := OInstance cls [("sql", default VNone (dict_get "sql" d'))]]> h
      else h)
     (fs w) (loggers w) (store w)
     ((trace w ++ import_events _cls) ++ [EvAddDataset n l])).
Proof.
  intros Hself Hcls Hinst Hsql l d' h.
  assert (Hlt : self < length (heap w)) by (by eapply lookup_lt_Some).
  unfold add_dataset. rewrite (new_instance _ cls) by done.
  erewrite bind_ok; cycle 1.
  { apply (setattr_Cihai _ d). simpl. by rewrite lookup_app_l. }
  unfold bind at 1, emit. simpl.
  assert (Hh_self : h !! self = Some (OCihai d')).
  { unfold h. apply list_lookup_insert_eq. rewrite length_app. simpl. lia. }
  assert (Hh_l : h !! l = Some (OInstance cls [])).
  { unfold h. rewrite list_lookup_insert_ne by (unfold l; lia).
    rewrite lookup_app_r by done. by rewrite Nat.sub_diag. }
  erewrite bind_ok; cycle 1.
  { apply (getattr_Cihai_dict _ d'); [exact Hh_self|]. apply dict_get_set_eq. }
  erewrite bind_ok; cycle 1.
  { apply (isinstance_Instance _ cls []). exact Hh_l. }
  destruct (cls_sqlalchemy cls) eqn:Hmix; [|reflexivity].
  destruct (dict_get "sql" d') as [v|] eqn:Hv.
  - erewrite bind_ok; cycle 1.
    { apply (getattr_Cihai_dict _ d'); [exact Hh_self|exact Hv]. }
    erewrite setattr_Instance by exact Hh_l. reflexivity.
  - exfalso. unfold d' in Hv. rewrite dict_get_set in Hv.
    destruct (Hsql eq_refl) as [->|[v Hd]].
    + by rewrite String.eqb_refl in Hv.
    + destruct (String.eqb n "sql"); congruence.
Qed.



End add_dataset_facts.



Section hoare_rules.

Lemma triple_ret {A} (P : world -> Prop) (a : A) Q R :
  (forall w, P w -> Q a w) -> triple P (ret a) Q R.
Proof. intros H w Hw. by apply H. Qed.

Lemma triple_raise {A} (P : world -> Prop) e (Q : A -> world -> Prop) R :
  (forall w, P w -> R e w) -> triple P (raise e) Q R.
Proof. intros H w Hw. by apply H. Qed.

Lemma triple_bind {A B} P (m : M A) (f : A -> M B) Q' Q R :
  triple P m Q' R ->
  (forall a, triple (Q' a) (f a) Q R) ->
  triple P (bind m f) Q R.
Proof.
  intros Hm Hf w Hw. specialize (Hm w Hw). unfold bind.
  destruct (m w) as [[a|e] w']; [by apply Hf|done].
Qed.

Lemma triple_conseq {A} (P P' : world -> Prop) (m : M A)
    (Q Q' : A -> world -> Prop) (R R' : exn -> world -> Prop) :
  triple P' m Q' R' ->
  (forall w, P w -> P' w) ->
  (forall a w, Q' a w -> Q a w) ->
  (forall e w, R' e w -> R e w) ->
  triple P m Q R.
Proof.
  intros Hm HP HQ HR w Hw. specialize (Hm w (HP w Hw)).
  destruct (m w) as [[a|e] w']; eauto.
Qed.

(** A loop with an invariant that knows which items are done. *)
Lemma triple_for_each {A} (I : list A -> world -> Prop) (f : A -> M unit)
    (R : exn -> world -> Prop) (l : list A) :
  (forall done x rest,
      l = done ++ x :: rest ->
      triple (I done) (f x) (fun _ => I (done ++ [x])) R) ->
  triple (I []) (for_each l f) (fun _ => I l) R.
Proof.
  intros Hbody.
  assert (Hgen : forall rest done, l = done ++ rest ->
            triple (I done) (for_each rest f) (fun _ => I l) R).
  { induction rest as [|x rest IH]; intros done Hl.
    - rewrite app_nil_r in Hl. rewrite Hl. by apply triple_ret.
    - simpl. eapply triple_bind; [by apply (Hbody done x rest)|].
      intros u. apply IH. by rewrite <- app_assoc. }
  by apply (Hgen l []).
Qed.

End hoare_rules.

Section bootstrap_facts.
Context {E : Env}.

Lemma attached_app t1 t2 : attached (t1 ++ t2) = attached t1 ++ attached t2.
Proof.
  induction t1 as [|e t1 IH]; simpl; [done|].
  destruct e; simpl; by rewrite ?IH.
Qed.

Lemma attached_import_events cs : attached (import_events cs) = [].
Proof. by destruct cs. Qed.

Lemma import_events_dataset_steps cs : Forall is_dataset_step (import_events cs).
Proof. destruct cs; simpl; repeat constructor. Qed.

Lemma import_events_plugin_steps cs : Forall is_plugin_step (import_events cs).
Proof. destruct cs; simpl; repeat constructor. Qed.

Lemma self_dict_ok_mono n0 db cfg t t' d :
  self_dict_ok n0 db cfg t d -> self_dict_ok n0 db cfg (t ++ t') d.
Proof.
  intros (Hsql & Hcfg & Hd). split; [done|split; [done|]].
  intros k v Hk. destruct (Hd k v Hk) as [?|(l & ? & ? & [?|?])]; [by left|..].
  - right. exists l. by eauto.
  - right. exists l. split; [done|split; [done|]]. right.
    apply in_or_app. by left.
Qed.

Lemma add_dataset_cases self d cs ns w :
  heap w !! self = Some (OCihai d) ->
  is_Some (dict_get "sql" d) ->
  (exists cls,
      names_class cs cls /\ cls_instantiable cls = true /\
      let l := length (heap w) in
      let d' := dict_set ns (VRef l) d in
      let h := <[self := OCihai d']> (heap w ++ [OInstance cls []]) in
      add_dataset self cs ns w =
      (Ok tt,
       World
         (if cls_sqlalchemy cls
          then <[l := OInstance cls [("sql", default VNone (dict_get "sql" d'))]]> h
          else h)
         (fs w) (loggers w) (store w)
         ((trace w ++ import_events cs) ++ [EvAddDataset ns l]))) \/
  (exists e,
      add_dataset self cs ns w =
      (Err e, set_trace (trace w ++ import_events cs) w) /\
      not_Cihai_error e).
Proof.
  intros Hself Hsql.
  assert (Hw : set_trace (trace w ++ []) w = w).
  { unfold set_trace. rewrite app_nil_r. by destruct w. }
  destruct cs as [| | |s| |c| | | | |];
    try (right; eexists; split;
         [unfold add_dataset, resolve_class, bind at 1, ret; simpl;
          by rewrite Hw
         |intros k; discriminate]).
  - destruct (import_string s) as [cls|] eqn:Himp.
    + destruct (cls_instantiable cls) eqn:Hinst.
      * left. exists cls. split; [done|split; [done|]].
        apply (add_dataset_run self d); by eauto.
      * right. eexists. split; [|intros k].
        { unfold add_dataset, resolve_class, bind at 1, bind at 1, emit. simpl.
          rewrite Himp. simpl. unfold bind at 1. simpl. by rewrite Hinst. }
        discriminate.
    + right. eexists. split; [|intros k].
      { unfold add_dataset, resolve_class, bind at 1, bind at 1, emit. simpl.
        by rewrite Himp. }
      discriminate.
  - destruct (cls_instantiable c) eqn:Hinst.
    + left. exists c. split; [done|split; [done|]].
      apply (add_dataset_run self d); by eauto.
    + right. eexists. split; [|intros k].
      { unfold add_dataset, resolve_class, bind at 1, ret. simpl.
        rewrite Hinst. by rewrite Hw. }
      discriminate.
Qed.

Lemma heap_ok_fresh_not_self n0 db self w l :
  heap_ok n0 db self w -> fresh n0 db l -> l <> self.
Proof. intros (_ & Hlt & Hne & _ & _) [->|Hl]; [done|lia]. Qed.

Lemma stateA_set_trace n0 db self cfg T L w t' :
  Forall is_dataset_step t' ->
  attached t' = [] ->
  stateA n0 db self cfg T L w ->
  stateA n0 db self cfg T L (set_trace (trace w ++ t') w).
Proof.
  intros Ht' Hatt' [Hheap (d & t & Hself & Htr & Hds & Hatt & Hdict & HL)].
  split; [exact Hheap|].
  exists d, (t ++ t'). simpl. split; [done|]. split.
  { by rewrite Htr, <- app_assoc. }
  split; [by apply Forall_app|]. split.
  { by rewrite attached_app, Hatt, Hatt', app_nil_r. }
  split; [by apply self_dict_ok_mono|done].
Qed.

Lemma dataset_step n0 db self cfg T L ns cs :
  triple (stateA n0 db self cfg T L)
    (let* f := getattr (VRef self) "add_dataset" in call_method2 f cs ns)
    (fun _ => stateA n0 db self cfg T (L ++ [ns]))
    (fun e w => not_Cihai_error e /\ exists L', stateA n0 db self cfg T L' w).
Proof.
  intros w HA.
  pose proof HA as [Hheap (d & t & Hself & Htr & Hds & Hatt & Hdict & HL)].
  unfold bind, getattr. rewrite Hself.
  destruct (dict_get "add_dataset" d) as [v|] eqn:Had.
  - destruct Hdict as (_ & _ & Hd).
    destruct (Hd _ _ Had) as [[? _]|(l & -> & _)]; [discriminate|].
    simpl. split; [intros k; discriminate|]. by exists L.
  - change (of_option (AttributeError OnCihai "add_dataset")
              (Cihai_class_attr self "add_dataset") w)
      with (Ok (VMethod self "add_dataset"), w).
    cbv beta iota.
    change (call_method2 (VMethod self "add_dataset") cs ns w)
      with (add_dataset self cs ns w).
    destruct (add_dataset_cases self d cs ns w Hself (proj1 Hdict))
      as [(cls & Hn & Hi & Hrun)|(e & Hrun & He)].
    + simpl in Hrun. rewrite Hrun. clear Hrun.
      set (l := length (heap w)). set (d' := dict_set ns (VRef l) d).
      set (h := <[self := OCihai d']> (heap w ++ [OInstance cls []])).
      set (v := default VNone (dict_get "sql" d')).
      destruct Hheap as (Hn0 & Hlt & Hne & [rdb Hdb] & Hplain).
      destruct Hdict as (Hsql & Hcfg & Hd).
      assert (Hself_lt : self < length (heap w)) by lia.
      assert (Hh_self : h !! self = Some (OCihai d')).
      { unfold h. apply list_lookup_insert_eq. rewrite length_app. simpl. lia. }
      assert (Hh_other : forall l', l' <> self -> l' <> l ->
                h !! l' = heap w !! l').
      { intros l' H1 H2. unfold h. rewrite list_lookup_insert_ne by done.
        destruct (decide (l' < length (heap w))).
        - by rewrite lookup_app_l.
        - rewrite !lookup_ge_None_2; [done|lia|].
          rewrite length_app. simpl. unfold l in H2. lia. }
      assert (Hh_l : h !! l = Some (OInstance cls [])).
      { unfold h. rewrite list_lookup_insert_ne by (unfold l; lia).
        rewrite lookup_app_r by done. by rewrite Nat.sub_diag. }
      assert (Hh_len : length h = S (length (heap w))).
      { unfold h. rewrite length_insert, length_app. simpl. lia. }
      assert (Hv : not_method v).
      { unfold v, d'. rewrite dict_get_set.
        destruct (String.eqb ns "sql"); [done|].
        destruct Hsql as [x Hx]. rewrite Hx. simpl.
        destruct (Hd _ _ Hx) as [[? _]|(l0 & -> & _)]; [discriminate|done]. }
      assert (Hfresh_l : fresh n0 db l) by (right; unfold l; lia).
      split.
      { (* the heap *)
        split; [|split; [done|split; [done|split]]].
        { cbn [heap]. destruct (cls_sqlalchemy cls);
            rewrite ?length_insert, Hh_len; lia. }
        { exists rdb. cbn [heap].
          assert (db < length (heap w)) by (by eapply lookup_lt_Some).
          destruct (cls_sqlalchemy cls);
            rewrite ?list_lookup_insert_ne by (unfold l; lia);
            rewrite Hh_other by (unfold l; lia); done. }
        intros l' o Hl' Hlook. cbn [heap] in Hlook.
        assert (l' <> self) by (destruct Hl'; [congruence|lia]).
        destruct (decide (l' = l)) as [Heq|Hll].
        - rewrite Heq in Hlook. destruct (cls_sqlalchemy cls).
          + rewrite list_lookup_insert_eq in Hlook by (rewrite Hh_len; unfold l; lia).
            injection Hlook as <-. simpl. intros k x.
            destruct (String.eqb k "sql"); [by intros [= <-]|done].
          + rewrite Hh_l in Hlook. injection Hlook as <-. by simpl.
        - apply (Hplain l' o Hl').
          destruct (cls_sqlalchemy cls).
          + rewrite list_lookup_insert_ne in Hlook by done.
            by rewrite Hh_other in Hlook.
          + by rewrite Hh_other in Hlook. }
      exists d', (t ++ import_events cs ++ [EvAddDataset ns l]). cbn [heap trace].
      split.
      { destruct (cls_sqlalchemy cls); [|done].
        rewrite list_lookup_insert_ne by (unfold l; lia). done. }
      split; [by rewrite Htr, <- !app_assoc|].
      split.
      { apply Forall_app. split; [done|]. apply Forall_app.
        split; [apply import_events_dataset_steps|by repeat constructor]. }
      split.
      { rewrite !attached_app, attached_import_events, Hatt. done. }
      split.
      { split; [|split].
        - unfold d'. rewrite dict_get_set.
          destruct (String.eqb ns "sql"); [by eexists|done].
        - unfold d'. rewrite dict_get_set.
          destruct (String.eqb ns "config"); [by eexists|done].
        - intros k x. unfold d'. rewrite dict_get_set.
          destruct (String.eqb ns k) eqn:Ek.
          + apply String.eqb_eq in Ek. subst k. intros [= <-].
            right. exists l. split; [done|split; [done|]]. right.
            apply in_or_app. right. apply in_or_app. right. by left.
          + intros Hk.
            destruct (Hd k x Hk) as [?|(l0 & ? & ? & [?|?])]; [by left|..].
            * right. exists l0. by eauto.
            * right. exists l0. split; [done|split; [done|]]. right.
              apply in_or_app. by left. }
      intros k Hk. unfold d'. rewrite dict_get_set.
      destruct (String.eqb ns k) eqn:Ek; [by eexists|].
      apply in_app_or in Hk as [Hk|[->|[]]]; [by apply HL|].
      by rewrite String.eqb_refl in Ek.
    + rewrite Hrun. split; [done|]. exists L.
      apply stateA_set_trace;
        [apply import_events_dataset_steps|apply attached_import_events|done].
Qed.


Lemma load_datasets_spec n0 db self cfg T :
  triple
    (fun w => stateA n0 db self cfg T [] w)
    (load_datasets self)
    (fun _ => stateA n0 db self cfg T (dict_keys (mapping_items "datasets" cfg)))
    (fun e w => not_Cihai_error e /\ exists L', stateA n0 db self cfg T L' w).
Proof.
  intros w HA.
  pose proof HA as [Hheap (d & t & Hself & Htr & Hds & Hatt & Hdict & HL)].
  unfold load_datasets. unfold bind at 1. unfold getattr at 1. rewrite Hself.
  destruct Hdict as (Hsql & [c Hc] & Hd). rewrite Hc.
  destruct (Hd _ _ Hc) as [[_ ->]|(l & -> & _)]; cycle 1.
  { simpl. split; [intros k; discriminate|]. by exists []. }
  unfold bind at 1. simpl dict_get_default. unfold ret at 1.
  unfold mapping_items.
  destruct (dict_get "datasets" cfg) as [ds|] eqn:Hds_cfg; simpl default.
  - destruct ds as [| | | |items| | | | | |];
      try (simpl; split; [intros k; discriminate|]; by exists []).
    unfold bind at 1. simpl dict_items. unfold ret at 1.
    pose proof (triple_for_each
      (fun done => stateA n0 db self cfg T (dict_keys done))
      (fun '(namespace, class_string) =>
         let* f := getattr (VRef self) "add_dataset" in
         call_method2 f class_string namespace)
      (fun e w => not_Cihai_error e /\ exists L', stateA n0 db self cfg T L' w)
      items) as Hloop.
    apply Hloop; [|exact HA].
    intros done [ns cs] rest _. unfold dict_keys. rewrite map_app. simpl.
    apply dataset_step.
  - simpl. exact HA.
Qed.

Lemma import_events_plugin_ok db d1 keys cs :
  Forall (plugin_event_ok db d1 keys) (import_events cs).
Proof. destruct cs; simpl; repeat constructor. Qed.

Lemma stateB_set_trace n0 db self d1 keys T w t' :
  Forall (plugin_event_ok db d1 keys) t' ->
  stateB n0 db self d1 keys T w ->
  stateB n0 db self d1 keys T (set_trace (trace w ++ t') w).
Proof.
  intros Ht' (Hheap & Hself & t & Htr & Hev).
  split; [exact Hheap|]. split; [exact Hself|].
  exists (t ++ t'). simpl. split; [by rewrite Htr, <- app_assoc|].
  by apply Forall_app.
Qed.

Lemma add_plugin_cases l cls dd cs ns w :
  heap w !! l = Some (OInstance cls dd) ->
  (exists pcls,
      let ln := length (heap w) in
      add_plugin l cs ns w =
      (Ok tt,
       World
         (<[l := OInstance cls (dict_set ns (VRef ln) dd)]>
            (heap w ++ [OInstance pcls []]))
         (fs w) (loggers w) (store w)
         ((trace w ++ import_events cs) ++ [EvAddPlugin l ns ln]))) \/
  (exists e,
      add_plugin l cs ns w =
      (Err e, set_trace (trace w ++ import_events cs) w) /\
      not_Cihai_error e).
Proof.
  intros Hl.
  assert (Hlt : l < length (heap w)) by (by eapply lookup_lt_Some).
  assert (Hw : set_trace (trace w ++ []) w = w).
  { unfold set_trace. rewrite app_nil_r. by destruct w. }
  assert (Hok : forall pcls,
            names_class cs pcls -> cls_instantiable pcls = true ->
            let ln := length (heap w) in
            add_plugin l cs ns w =
            (Ok tt,
             World
               (<[l := OInstance cls (dict_set ns (VRef ln) dd)]>
                  (heap w ++ [OInstance pcls []]))
               (fs w) (loggers w) (store w)
               ((trace w ++ import_events cs) ++ [EvAddPlugin l ns ln]))).
  { intros pcls Hn Hi ln. unfold add_plugin.
    rewrite (new_instance _ pcls) by done.
    erewrite bind_ok; cycle 1.
    { apply (setattr_Instance _ cls dd). simpl. by rewrite lookup_app_l. }
    reflexivity. }
  destruct cs as [| | |s| |c| | | | |];
    try (right; eexists; split;
         [unfold add_plugin, resolve_class, bind at 1, ret; simpl;
          by rewrite Hw
         |intros k; discriminate]).
  - destruct (import_string s) as [pcls|] eqn:Himp.
    + destruct (cls_instantiable pcls) eqn:Hinst.
      * left. exists pcls. by apply Hok.
      * right. eexists. split; [|intros k].
        { unfold add_plugin, resolve_class, bind at 1, bind at 1, emit. simpl.
          rewrite Himp. simpl. unfold bind at 1. simpl. by rewrite Hinst. }
        discriminate.
    + right. eexists. split; [|intros k].
      { unfold add_plugin, resolve_class, bind at 1, bind at 1, emit. simpl.
        by rewrite Himp. }
      discriminate.
  - destruct (cls_instantiable c) eqn:Hinst.
    + left. exists c. by apply Hok.
    + right. eexists. split; [|intros k].
      { unfold add_plugin, resolve_class, bind at 1, ret. simpl.
        rewrite Hinst. by rewrite Hw. }
      discriminate.
Qed.


Lemma call_method2_not_method v cs ns w :
  not_method v ->
  exists e, call_method2 v cs ns w = (Err e, w) /\ not_Cihai_error e.
Proof.
  destruct v; simpl; try done; intros _;
    (eexists; split; [reflexivity|intros k; discriminate]).
Qed.

Lemma plugin_step n0 db self cfg d1 keys T dataset ns cs :
  is_mapping DEFAULT_CONFIG = true ->
  attrs_ok n0 db cfg d1 ->
  In dataset keys ->
  triple (stateB n0 db self d1 keys T)
    (let* d := getattr (VRef self) dataset in
     let* f := getattr d "add_plugin" in
     call_method2 f cs ns)
    (fun _ => stateB n0 db self d1 keys T)
    (fun e w => (is_Some (dict_get dataset d1) -> not_Cihai_error e) /\
                stateB n0 db self d1 keys T w).
Proof.
  intros Hdefault Hd1 Hin w HB.
  pose proof HB as (Hheap & Hself & t & Htr & Hev).
  unfold bind at 1. unfold getattr at 1. rewrite Hself.
  destruct (dict_get dataset d1) as [v|] eqn:Hv.
  - destruct (Hd1 _ _ Hv) as [[_ ->]|(l & -> & Hl)].
    { simpl. split; [intros _ k; discriminate|done]. }
    unfold bind at 1. unfold getattr at 1.
    destruct (heap w !! l) as [o|] eqn:Hlook; cycle 1.
    { split; [intros _ k; discriminate|done]. }
    pose proof Hheap as (Hn0 & Hlt & Hne & [rdb Hdb] & Hplain).
    pose proof (Hplain l o Hl Hlook) as Ho.
    destruct o as [?|?|cls dd]; [done| |].
    { simpl. split; [intros _ k; discriminate|done]. }
    destruct (dict_get "add_plugin" dd) as [v'|] eqn:Hv'.
    { destruct (call_method2_not_method v' cs ns w (Ho _ _ Hv'))
        as (e & -> & He).
      split; [done|done]. }
    simpl. destruct (cls_dataset cls); cycle 1.
    { split; [intros _ k; discriminate|done]. }
    change (call_method2 (VMethod l "add_plugin") cs ns w)
      with (add_plugin l cs ns w).
    destruct (add_plugin_cases l cls dd cs ns w Hlook)
      as [(pcls & Hrun)|(e & Hrun & He)].
    + simpl in Hrun. rewrite Hrun. clear Hrun.
      set (ln := length (heap w)).
      assert (Hl_lt : l < length (heap w)) by (by eapply lookup_lt_Some).
      assert (Hl_self : l <> self) by (destruct Hl; [congruence|lia]).
      set (h := <[l := OInstance cls (dict_set ns (VRef ln) dd)]>
                  (heap w ++ [OInstance pcls []])).
      assert (Hh_len : length h = S (length (heap w))).
      { unfold h. rewrite length_insert, length_app. simpl. lia. }
      split; [|split].
      * split; [cbn [heap]; lia|]. split; [done|]. split; [done|].
        split.
        { exists rdb. cbn [heap]. fold h. unfold h.
          assert (db <> l) by (intros ->; congruence).
          rewrite list_lookup_insert_ne by done.
          rewrite lookup_app_l by (by eapply lookup_lt_Some). done. }
        intros l' o Hl' Hlook'. cbn [heap] in Hlook'. fold h in Hlook'.
        destruct (decide (l' = l)) as [Heq|Hll].
        { rewrite Heq in Hlook'. unfold h in Hlook'.
          rewrite list_lookup_insert_eq in Hlook'
            by (rewrite length_app; simpl; lia).
          injection Hlook' as <-. simpl. intros k x. rewrite dict_get_set.
          destruct (String.eqb ns k); [by intros [= <-]|by apply Ho]. }
        unfold h in Hlook'. rewrite list_lookup_insert_ne in Hlook' by done.
        destruct (decide (l' < length (heap w))).
        { rewrite lookup_app_l in Hlook' by done. by apply (Hplain l' o). }
        rewrite lookup_app_r in Hlook' by lia.
        destruct (l' - length (heap w)) as [|i]; simpl in Hlook';
          [|by rewrite lookup_nil in Hlook'].
        injection Hlook' as <-. by simpl.
      * cbn [heap]. unfold h.
        rewrite list_lookup_insert_ne by done.
        rewrite lookup_app_l by (by eapply lookup_lt_Some). exact Hself.
      * exists (t ++ import_events cs ++ [EvAddPlugin l ns ln]).
        cbn [trace]. split; [by rewrite Htr, <- !app_assoc|].
        apply Forall_app. split; [done|]. apply Forall_app.
        split; [apply import_events_plugin_ok|].
        constructor; [|constructor]. simpl.
        split; [intros ->; congruence|by exists dataset].
    + rewrite Hrun. split; [done|].
      apply stateB_set_trace; [apply import_events_plugin_ok|done].
  - unfold of_option, Cihai_class_attr.
    destruct (String.eqb dataset "default_config").
    { unfold ret at 1. unfold bind at 1.
      destruct DEFAULT_CONFIG; try discriminate.
      simpl. split; [intros [? ?]; discriminate|done]. }
    destruct (mem_string dataset Cihai_methods).
    { unfold ret at 1. unfold bind at 1.
      simpl. split; [intros [? ?]; discriminate|done]. }
    simpl. split; [intros [? ?]; discriminate|done].
Qed.


Lemma load_plugin_group_spec n0 db self cfg d1 keys T group :
  is_mapping DEFAULT_CONFIG = true ->
  attrs_ok n0 db cfg d1 ->
  In (fst group) keys ->
  triple (stateB n0 db self d1 keys T)
    (load_plugin_group self group)
    (fun _ => stateB n0 db self d1 keys T)
    (fun e w => (is_Some (dict_get (fst group) d1) -> not_Cihai_error e) /\
                stateB n0 db self d1 keys T w).
Proof.
  intros Hdefault Hd1 Hin. destruct group as [dataset plugins]. simpl in *.
  destruct plugins as [| | | |items| | | | | |];
    try (intros w HB; simpl; split; [intros _ k; discriminate|done]).
  eapply triple_bind; [apply triple_ret; intros w HB; exact HB|].
  intros items'. simpl.
  apply (triple_for_each (fun _ => stateB n0 db self d1 keys T)).
  intros done [ns cs] rest _. by eapply plugin_step.
Qed.

Lemma load_plugins_spec n0 db self cfg d1 T :
  is_mapping DEFAULT_CONFIG = true ->
  attrs_ok n0 db cfg d1 ->
  is_Some (dict_get "config" d1) ->
  let keys := dict_keys (mapping_items "plugins" cfg) in
  triple (stateB n0 db self d1 keys T)
    (load_plugins self)
    (fun _ => stateB n0 db self d1 keys T)
    (fun e w => ((forall k, In k keys -> is_Some (dict_get k d1)) ->
                 not_Cihai_error e) /\
                stateB n0 db self d1 keys T w).
Proof.
  intros Hdefault Hd1 [c Hc] keys w HB.
  subst keys. unfold mapping_items in *.
  pose proof HB as (Hheap & Hself & _).
  unfold load_plugins. unfold bind at 1. unfold getattr at 1.
  rewrite Hself, Hc.
  destruct (Hd1 _ _ Hc) as [[_ ->]|(l & -> & _)]; cycle 1.
  { simpl. split; [intros _ k; discriminate|done]. }
  unfold bind at 1. simpl dict_get_default. unfold ret at 1.
  destruct (dict_get "plugins" cfg) as [ps|] eqn:Hps; simpl default.
  - destruct ps as [| | | |groups| | | | | |];
      try (simpl; split; [intros _ k; discriminate|done]).
    unfold bind at 1. simpl dict_items. unfold ret at 1.
    pose proof (triple_for_each
      (fun _ => stateB n0 db self d1 (dict_keys groups) T)
      (load_plugin_group self)
      (fun e w => ((forall k, In k (dict_keys groups) ->
                               is_Some (dict_get k d1)) ->
                   not_Cihai_error e) /\
                  stateB n0 db self d1 (dict_keys groups) T w)
      groups) as Hloop.
    apply Hloop; [|exact HB].
    intros done group rest Hgroups.
    assert (Hin : In (fst group) (dict_keys groups)).
    { rewrite Hgroups. unfold dict_keys. rewrite map_app. simpl.
      apply in_or_app. right. by left. }
    eapply triple_conseq;
      [by apply (load_plugin_group_spec n0 db self cfg)|done|done|].
    intros e w' [He HB']. split; [|done]. intros Hall. by apply He, Hall.
  - simpl. exact HB.
Qed.



End bootstrap_facts.


(** Without the precondition of C7 the lookup does fail: a plugin group
    for a dataset that is not configured ends the run with "the Cihai
    object has no attribute", after the datasets have been attached. *)
Example bootstrap_plugin_without_dataset :
  fst (@bootstrap sample_env 0 orphan_plugin_world)
  = Err (AttributeError OnCihai "kanji") /\
  trace (snd (@bootstrap sample_env 0 orphan_plugin_world))
  = [EvImport "cihai.unihan.Unihan"; EvAddDataset "unihan" 2].
Proof. split; reflexivity. Qed.

Section order_facts.
Context {E : Env}.

Lemma in_order_nil ph : in_order ph [].
Proof. intros i j e1 e2 _ H. by rewrite lookup_nil in H. Qed.

Lemma in_order_singleton ph e : in_order ph [e].
Proof.
  intros i j e1 e2 Hij H1 H2.
  apply lookup_lt_Some in H1, H2. simpl in *. lia.
Qed.

Lemma in_order_app ph t1 t2 b :
  in_order ph t1 -> in_order ph t2 ->
  Forall (fun e => ph e <= b) t1 ->
  Forall (fun e => b <= ph e) t2 ->
  in_order ph (t1 ++ t2).
Proof.
  intros H1 H2 Hb1 Hb2 i j e1 e2 Hij Hi Hj.
  rewrite List.Forall_forall in Hb1, Hb2.
  destruct (decide (j < length t1)) as [Hj1|Hj1].
  - rewrite lookup_app_l in Hi, Hj by lia. exact (H1 i j e1 e2 Hij Hi Hj).
  - rewrite lookup_app_r in Hj by lia.
    assert (b <= ph e2).
    { apply Hb2. apply list_elem_of_In. by eapply list_elem_of_lookup_2. }
    destruct (decide (i < length t1)) as [Hi1|Hi1].
    + rewrite lookup_app_l in Hi by lia.
      assert (ph e1 <= b).
      { apply Hb1. apply list_elem_of_In. by eapply list_elem_of_lookup_2. }
      lia.
    + rewrite lookup_app_r in Hi by lia.
      eapply (H2 (i - length t1) (j - length t1)); [lia|done|done].
Qed.

Lemma steps_silent {A} lo hi (m : M A) : silent m -> steps lo hi m.
Proof.
  intros H w. exists []. rewrite app_nil_r.
  split; [apply H|]. split; [apply in_order_nil|constructor].
Qed.

Lemma steps_emit lo hi e :
  lo <= phase e -> phase e <= hi -> steps lo hi (emit e).
Proof.
  intros H1 H2 w. exists [e]. split; [reflexivity|].
  split; [apply in_order_singleton|]. by repeat constructor.
Qed.

Lemma steps_weaken {A} lo hi lo' hi' (m : M A) :
  steps lo hi m -> lo' <= lo -> hi <= hi' -> steps lo' hi' m.
Proof.
  intros H Hlo Hhi w. destruct (H w) as (t & Ht & Ho & Hb).
  exists t. split; [done|]. split; [done|].
  eapply Forall_impl; [exact Hb|]. simpl. intros e [? ?]. lia.
Qed.

Lemma steps_bind {A B} lo mid hi (m : M A) (f : A -> M B) :
  lo <= mid -> mid <= hi ->
  steps lo mid m ->
  (forall a, steps mid hi (f a)) ->
  steps lo hi (bind m f).
Proof.
  intros Hlo Hhi Hm Hf w. unfold bind.
  destruct (Hm w) as (t1 & Ht1 & Ho1 & Hb1).
  destruct (m w) as [[a|e] w1]; simpl in *.
  - destruct (Hf a w1) as (t2 & Ht2 & Ho2 & Hb2).
    exists (t1 ++ t2). split; [by rewrite Ht2, Ht1, <- app_assoc|].
    split.
    + apply (in_order_app _ _ _ mid); [done|done|..].
      * eapply Forall_impl; [exact Hb1|]. simpl. intros ? [? ?]. lia.
      * eapply Forall_impl; [exact Hb2|]. simpl. intros ? [? ?]. lia.
    + apply Forall_app. split.
      * eapply Forall_impl; [exact Hb1|]. simpl. intros ? [? ?]. lia.
      * eapply Forall_impl; [exact Hb2|]. simpl. intros ? [? ?]. lia.
  - exists t1. split; [done|]. split; [done|].
    eapply Forall_impl; [exact Hb1|]. simpl. intros ? [? ?]. lia.
Qed.

Lemma steps_silent_bind {A B} lo hi (m : M A) (f : A -> M B) :
  lo <= hi ->
  silent m ->
  (forall a, steps lo hi (f a)) ->
  steps lo hi (bind m f).
Proof.
  intros Hle Hm Hf. apply (steps_bind lo lo hi); [lia|done| |done].
  by apply steps_silent.
Qed.

Lemma steps_for_each {A} p (l : list A) (f : A -> M unit) :
  (forall x, steps p p (f x)) -> steps p p (for_each l f).
Proof.
  intros Hf. induction l as [|x l IH]; simpl.
  - apply steps_silent. by intros w.
  - apply (steps_bind p p p); [lia|lia|apply Hf|]. intros _. exact IH.
Qed.

Lemma silent_ret {A} (a : A) : silent (ret a).
Proof. by intros w. Qed.

Lemma silent_raise {A} e : silent (@raise A e).
Proof. by intros w. Qed.

Lemma silent_getattr v n : silent (getattr v n).
Proof. intros w. by rewrite getattr_world. Qed.

Lemma silent_setattr v n x : silent (setattr v n x).
Proof. intros w. unfold setattr. by repeat case_match. Qed.

Lemma silent_of_option {A} e (o : option A) : silent (of_option e o).
Proof. intros w. by destruct o. Qed.

Lemma silent_dict_get_default d k x : silent (dict_get_default d k x).
Proof. intros w. by destruct d. Qed.

Lemma silent_dict_items d : silent (dict_items d).
Proof. intros w. by destruct d. Qed.

Lemma silent_isinstance v : silent (isinstance_SQLAlchemyMixin v).
Proof. intros w. unfold isinstance_SQLAlchemyMixin. by repeat case_match. Qed.

Lemma silent_instantiate c : silent (instantiate c).
Proof.
  intros w. unfold instantiate. destruct c; try done.
  by destruct (cls_instantiable c).
Qed.

Lemma silent_path_exists p : silent (path_exists p).
Proof. by intros w. Qed.

Lemma silent_setup_logger logger level : silent (setup_logger logger level).
Proof. intros w. unfold setup_logger. by repeat case_match. Qed.

Lemma silent_table_columns q : silent (table_columns q).
Proof. intros w. by destruct q. Qed.


Create HintDb silent.
#[local] Hint Resolve silent_ret silent_raise silent_getattr silent_setattr
  silent_of_option silent_dict_get_default silent_dict_items
  silent_isinstance silent_instantiate silent_path_exists
  silent_setup_logger silent_table_columns : silent.

(** [m] makes no step: the bind stays in the phases of what follows. *)
Ltac quiet :=
  cbv beta iota; apply steps_silent_bind; [lia|solve [auto with silent]|intros].

(** [m] is one step [emit e], at the low end of the phases. *)
Ltac loud := eapply steps_bind; [| |apply steps_emit; simpl; lia|intros];
             [simpl; lia|simpl; lia|].

Ltac hush := cbv beta iota; apply steps_silent; solve [auto with silent].

Lemma steps_resolve_class c : steps 6 6 (resolve_class c).
Proof.
  destruct c; simpl; try hush.
  apply (steps_bind 6 6 6); [lia|lia|apply steps_emit; simpl; lia|]. intros _.
  quiet. hush.
Qed.

Lemma steps_add_dataset self c n : steps 6 6 (add_dataset self c n).
Proof.
  unfold add_dataset.
  apply (steps_bind 6 6 6); [lia|lia|apply steps_resolve_class|]. intros c'.
  quiet. quiet.
  apply (steps_bind 6 6 6); [lia|lia|apply steps_emit; simpl; lia|]. intros _.
  quiet. quiet.
  match goal with |- context [if ?b then _ else _] => destruct b end;
    [|hush].
  quiet. hush.
Qed.

Lemma steps_add_plugin l c n : steps 6 6 (add_plugin l c n).
Proof.
  unfold add_plugin.
  apply (steps_bind 6 6 6); [lia|lia|apply steps_resolve_class|]. intros c'.
  quiet. quiet. apply steps_emit; simpl; lia.
Qed.

Lemma steps_call_method2 f c n : steps 6 6 (call_method2 f c n).
Proof.
  destruct f; simpl; try hush.
  destruct (String.eqb name "add_dataset"); [apply steps_add_dataset|].
  destruct (String.eqb name "add_plugin"); [apply steps_add_plugin|hush].
Qed.

Lemma steps_load_datasets self : steps 6 6 (load_datasets self).
Proof.
  unfold load_datasets. quiet. quiet. quiet.
  apply steps_for_each. intros [ns cs]. quiet. apply steps_call_method2.
Qed.

Lemma steps_load_plugin_group self g : steps 6 6 (load_plugin_group self g).
Proof.
  destruct g as [dataset plugins]. unfold load_plugin_group. quiet.
  apply steps_for_each. intros [ns cs]. quiet. quiet.
  apply steps_call_method2.
Qed.

Lemma steps_load_plugins self : steps 6 6 (load_plugins self).
Proof.
  unfold load_plugins. quiet. quiet. quiet.
  apply steps_for_each. intros g. apply steps_load_plugin_group.
Qed.

Lemma steps_bootstrap self : steps 6 6 (bootstrap self).
Proof.
  unfold bootstrap.
  apply (steps_bind 6 6 6); [lia|lia|apply steps_load_datasets|]. intros _.
  apply steps_load_plugins.
Qed.

Lemma silent_alloc o : silent (alloc o).
Proof. by intros w. Qed.

Lemma steps_makedirs p : steps 4 4 (makedirs p).
Proof.
  unfold makedirs.
  apply (steps_bind 4 4 4); [lia|lia|apply steps_emit; simpl; lia|]. intros _.
  apply steps_silent. by intros w.
Qed.

Lemma steps_Database c : steps 5 5 (Database c).
Proof.
  intros w. exists [EvDatabase (length (heap w))]. split; [reflexivity|].
  split; [apply in_order_singleton|]. by repeat constructor.
Qed.

Lemma steps_Cihai_new config unihan : steps 2 6 (Cihai_new config unihan).
Proof.
  unfold Cihai_new.
  apply steps_silent_bind; [lia|apply silent_alloc|]. intros self.
  quiet.
  apply (steps_bind 2 2 6); [lia|lia|apply steps_emit; simpl; lia|]. intros _.
  quiet. quiet.
  apply (steps_bind 2 3 6); [lia|lia|apply steps_emit; simpl; lia|]. intros _.
  apply steps_silent_bind; [lia|auto with silent|]. intros ex.
  apply (steps_bind 3 4 6); [lia|lia| |]. 
  { destruct (negb ex); [|apply steps_silent; auto with silent].
    eapply steps_weaken; [apply steps_makedirs|lia|lia]. }
  intros _.
  apply steps_silent_bind; [lia|auto with silent|]. intros c.
  apply (steps_bind 4 5 6); [lia|lia| |].
  { eapply steps_weaken; [apply steps_Database|lia|lia]. }
  intros sql.
  apply steps_silent_bind; [lia|auto with silent|]. intros _.
  apply (steps_bind 5 6 6); [lia|lia| |].
  { eapply steps_weaken; [apply steps_bootstrap|lia|lia]. }
  intros _. apply steps_silent. auto with silent.
Qed.

Lemma steps_from_file p : steps 2 6 (from_file p).
Proof.
  unfold from_file.
  apply (steps_bind 2 2 6); [lia|lia| |intros c; apply steps_Cihai_new].
  destruct p as [p|]; [|hush].
  destruct (negb (String.eqb p "")); [|hush].
  quiet.
  match goal with |- context [if ?b then _ else _] => destruct b end;
    [hush|].
  match goal with |- context [if ?b then _ else _] => destruct b end;
    [hush|].
  quiet. hush.
Qed.









End order_facts.



Section command_info_facts.
Context {E : Env}.

Lemma world_eta w t :
  t = trace w -> World (heap w) (fs w) (loggers w) (store w) t = w.
Proof. intros ->. by destruct w. Qed.

Lemma print_columns cols0 r cols w :
  (forall c, In c cols -> is_Some (dict_get c r)) ->
  for_each cols (fun c =>
    let* value := getattr (VRecord cols0 r) c in
    if truthy value then
      let value := if PY2 then encode_utf8 (text_of value) else text_of value in
      emit (EvPrint (format_line c value))
    else ret tt) w
  = (Ok tt,
     World (heap w) (fs w) (loggers w) (store w)
       (trace w ++ map EvPrint (printed_lines cols r))).
Proof.
  revert w. induction cols as [|c cols IH]; intros w Hall.
  - simpl. unfold ret. f_equal. symmetry. apply world_eta. by rewrite app_nil_r.
  - simpl. unfold bind at 1. unfold bind at 1. unfold getattr at 1.
    destruct (Hall c (or_introl eq_refl)) as [v Hv]. rewrite Hv.
    assert (Hrest : forall c', In c' cols -> is_Some (dict_get c' r))
      by (intros c' Hc'; apply Hall; by right).
    destruct v as [s|]; simpl.
    + destruct (String.eqb s "") eqn:Es; simpl.
      * unfold ret at 1. rewrite IH by done. reflexivity.
      * unfold emit at 1. rewrite IH by done. simpl.
        by rewrite <- app_assoc.
    + unfold ret at 1. rewrite IH by done. reflexivity.
Qed.

(** What [command_info] does on an object that has [base] and [session],
    as the database handle has: it prints the columns of the first row
    for the character, those with a text that is not empty, in the order
    of the table's columns. *)
Lemma command_info_on_handle_prints l reflected cols t r char w :
  heap w !! l = Some (ODatabase reflected) ->
  dict_get "Unihan" reflected = Some cols ->
  mem_string "char" cols = true ->
  dict_get "Unihan" (store w) = Some t ->
  List.find (row_matches char) (tbl_rows t) = Some r ->
  (forall c, In c cols -> is_Some (dict_get c r)) ->
  command_info (VRef l) char w =
  (Ok tt,
   World (heap w) (fs w) (loggers w) (store w)
     (trace w ++ EvQuery char :: map EvPrint (printed_lines cols r))).
Proof.
  intros Hl Hrefl Hchar Hstore Hfind Hall.
  unfold command_info.
  unfold bind at 1. unfold getattr at 1. rewrite Hl. simpl of_option.
  unfold ret at 1.
  unfold bind at 1. unfold getattr at 1. simpl.
  unfold bind at 1. unfold getattr at 1. simpl. rewrite Hl, Hrefl.
  unfold bind at 1. unfold getattr at 1. rewrite Hl. simpl of_option.
  unfold ret at 1.
  unfold bind at 1. unfold query_first. simpl.
  unfold bind at 1. unfold emit at 1. rewrite Hchar.
  unfold set_trace. cbn [store]. rewrite Hstore, Hfind.
  unfold bind at 1. simpl table_columns. unfold ret at 1.
  rewrite print_columns by done. simpl.
  by rewrite <- app_assoc.
Qed.


(** An application object has no [base] unless a dataset has been attached
    under that name, and the command ends at its first line. *)
Lemma command_info_Cihai self d char w :
  heap w !! self = Some (OCihai d) ->
  dict_get "base" d = None ->
  command_info (VRef self) char w = (Err (AttributeError OnCihai "base"), w).
Proof.
  intros Hself Hbase. unfold command_info, bind, getattr.
  by rewrite Hself, Hbase.
Qed.

End command_info_facts.

Section constructor_facts.
Context {E : Env}.

Lemma initial_stateA self db cfg reflected w :
  heap w !! self = Some (OCihai [("config", VDict cfg); ("sql", VRef db)]) ->
  heap w !! db = Some (ODatabase reflected) ->
  stateA (length (heap w)) db self cfg (trace w) [] w.
Proof.
  intros Hself Hdb.
  assert (Hself_lt : self < length (heap w)) by (by eapply lookup_lt_Some).
  assert (Hne : self <> db) by (intros ->; congruence).
  split.
  { split; [done|]. split; [done|]. split; [done|]. split; [by eexists|].
    intros l o [->|Hl] Hlook.
    - rewrite Hdb in Hlook. by injection Hlook as <-.
    - apply lookup_lt_Some in Hlook. lia. }
  exists [("config", VDict cfg); ("sql", VRef db)], [].
  split; [done|]. split; [by rewrite app_nil_r|]. split; [done|].
  split; [done|]. split; [|by intros k []].
  split; [by eexists|]. split; [by eexists|].
  intros k v. simpl.
  destruct (String.eqb k "config") eqn:Ek.
  { apply String.eqb_eq in Ek. intros [= <-]. by left. }
  destruct (String.eqb k "sql") eqn:Ek'; [|done].
  apply String.eqb_eq in Ek'. intros [= <-]. right. exists db.
  split; [done|]. split; [by left|by left].
Qed.

(** After a run of [bootstrap] that went through, every attribute of the
    application object other than [config] holds an object. *)
Lemma bootstrap_ok_attrs self db cfg reflected w w' :
  is_mapping DEFAULT_CONFIG = true ->
  heap w !! self = Some (OCihai [("config", VDict cfg); ("sql", VRef db)]) ->
  heap w !! db = Some (ODatabase reflected) ->
  bootstrap self w = (Ok tt, w') ->
  exists d1,
    heap w' !! self = Some (OCihai d1) /\
    forall k v, dict_get k d1 = Some v -> k = "config" \/ exists l, v = VRef l.
Proof.
  intros Hdefault Hself Hdb Hrun.
  pose proof (initial_stateA self db cfg reflected w Hself Hdb) as HA.
  set (n0 := length (heap w)) in *.
  pose proof (load_datasets_spec n0 db self cfg (trace w) w HA) as HrunA.
  unfold bootstrap, bind in Hrun.
  destruct (load_datasets self w) as [[[]|e] w1]; [|discriminate].
  destruct HrunA as [Hheap1 (d1 & tA & Hself1 & HtrA & HdsA & HattA & Hdict1 & HL1)].
  assert (Hattrs : attrs_ok n0 db cfg d1).
  { intros k v Hk. destruct Hdict1 as (_ & _ & Hd).
    destruct (Hd k v Hk) as [?|(l & ? & ? & _)]; [by left|right; by eauto]. }
  assert (HB : stateB n0 db self d1
                 (dict_keys (mapping_items "plugins" cfg)) (trace w1) w1).
  { split; [done|]. split; [done|]. exists []. by rewrite app_nil_r. }
  pose proof (load_plugins_spec n0 db self cfg d1 (trace w1) Hdefault Hattrs
                (proj1 (proj2 Hdict1)) w1 HB) as HrunB.
  destruct (load_plugins self w1) as [[[]|e] w2]; [|discriminate].
  injection Hrun as <-.
  destruct HrunB as (_ & Hself2 & _).
  exists d1. split; [done|].
  intros k v Hk. destruct (Hattrs k v Hk) as [[? _]|(l & ? & _)];
    [by left|right; by eauto].
Qed.

Lemma bootstrap_config_not_mapping self d c w :
  heap w !! self = Some (OCihai d) ->
  dict_get "config" d = Some c ->
  is_mapping c = false ->
  bootstrap self w = (Err (AttributeError OnValue "get"), w).
Proof.
  intros Hself Hc Hmap.
  unfold bootstrap, load_datasets, bind, getattr. rewrite Hself, Hc.
  by destruct c.
Qed.

Lemma getattr_at_end h d r n x f g s t :
  dict_get n d = Some x ->
  getattr (VRef (length h)) n (World (h ++ OCihai d :: r) f g s t) =
  (Ok x, World (h ++ OCihai d :: r) f g s t).
Proof.
  intros Hn. apply (getattr_Cihai_dict _ d); [|done].
  simpl. by apply list_lookup_middle.
Qed.

Lemma setattr_at_end h d r n x f g s t :
  setattr (VRef (length h)) n x (World (h ++ OCihai d :: r) f g s t) =
  (Ok tt, World (h ++ OCihai (dict_set n x d) :: r) f g s t).
Proof.
  rewrite (setattr_Cihai _ d) by (simpl; by apply list_lookup_middle).
  unfold set_heap. simpl. f_equal. f_equal.
  rewrite insert_app_r_alt by done. by rewrite Nat.sub_diag.
Qed.

Ltac norm :=
  unfold set_heap, set_trace, set_fs; cbn [heap fs loggers store trace].

Lemma Cihai_new_unfold config unihan w :
  Cihai_new config unihan w =
  bind (bootstrap (length (heap w))) (fun _ => ret (length (heap w)))
    (before_bootstrap config unihan w).
Proof.
  unfold Cihai_new, before_bootstrap.
  unfold bind at 1. unfold alloc at 1. norm.
  rewrite (bind_ok _ _ _ _ _ (setattr_at_end _ _ _ _ _ _ _ _ _)).
  unfold bind at 1. unfold emit at 1. norm.
  rewrite (bind_ok _ _ _ _ _
             (getattr_at_end _
                (dict_set "config" (merged_config config unihan) [])
                _ "config" (merged_config config unihan)
                _ _ _ _ eq_refl)).
  rewrite (bind_ok _ _ _ _ _ (setattr_at_end _ _ _ _ _ _ _ _ _)).
  unfold bind at 1. unfold emit at 1. norm.
  unfold bind at 1. unfold path_exists at 1. norm.
  assert (Hafter : forall f t,
    (let* c := getattr (VRef (length (heap w))) "config" in
     let* sql := Database c in
     setattr (VRef (length (heap w))) "sql" sql;;;
     bootstrap (length (heap w));;; ret (length (heap w)))
      (World
         (heap w ++
          [OCihai (dict_set "config"
                     (expand_config (merged_config config unihan))
                     (dict_set "config" (merged_config config unihan) []))])
         f (loggers w) (store w) t)
    = bind (bootstrap (length (heap w))) (fun _ => ret (length (heap w)))
        (World
           (heap w ++
            [OCihai [("config", expand_config (merged_config config unihan));
                     ("sql", VRef (S (length (heap w))))];
             ODatabase (reflect (store w))])
           f (loggers w) (store w)
           (t ++ [EvDatabase (S (length (heap w)))]))).
  { intros f t.
    rewrite (bind_ok _ _ _ _ _
               (getattr_at_end _
                  (dict_set "config"
                     (expand_config (merged_config config unihan))
                     (dict_set "config" (merged_config config unihan) []))
                  _ "config"
                  (expand_config (merged_config config unihan))
                  _ _ _ _ eq_refl)).
    unfold bind at 1. unfold Database at 1. norm.
    rewrite length_app. simpl length. rewrite Nat.add_1_r.
    rewrite <- app_assoc. cbn [app].
    rewrite (bind_ok _ _ _ _ _ (setattr_at_end _ _ _ _ _ _ _ _ _)).
    reflexivity. }
  destruct (bool_decide (user_data_dir ∈ fs w)); simpl negb; cbv iota.
  - unfold bind at 1. unfold ret at 1.
    rewrite Hafter. by rewrite <- !app_assoc.
  - unfold bind at 1. unfold makedirs, bind at 1, emit at 1. norm.
    rewrite Hafter. by rewrite <- !app_assoc.
Qed.

Lemma Cihai_new_attrs config unihan w self w' :
  is_mapping DEFAULT_CONFIG = true ->
  Cihai_new config unihan w = (Ok self, w') ->
  holds_objects self w'.
Proof.
  intros Hdefault Hrun. rewrite Cihai_new_unfold in Hrun.
  unfold bind in Hrun.
  destruct (bootstrap (length (heap w)) (before_bootstrap config unihan w))
    as [[[]|e] w''] eqn:Hb; [|discriminate].
  injection Hrun as <- <-.
  set (cfg := expand_config (merged_config config unihan)) in *.
  assert (Hself : heap (before_bootstrap config unihan w) !! length (heap w)
                  = Some (OCihai [("config", cfg);
                                  ("sql", VRef (S (length (heap w))))])).
  { unfold before_bootstrap. simpl. by apply list_lookup_middle. }
  assert (Hdb : heap (before_bootstrap config unihan w) !! S (length (heap w))
                = Some (ODatabase (reflect (store w)))).
  { unfold before_bootstrap. simpl.
    rewrite lookup_app_r by lia.
    replace (S (length (heap w)) - length (heap w)) with 1 by lia. done. }
  destruct (is_mapping cfg) eqn:Hmap.
  - destruct cfg as [| | | |c| | | | | |] eqn:Hcfg; try discriminate.
    eapply bootstrap_ok_attrs; eauto.
  - rewrite (bootstrap_config_not_mapping _ _ cfg _ Hself eq_refl Hmap) in Hb.
    discriminate.
Qed.

Lemma from_file_cases p w :
  (exists e, from_file p w = (Err e, w)) \/
  (exists config, from_file p w = Cihai_new config true w).
Proof.
  unfold from_file, bind, path_exists, ret, raise.
  destruct p as [p|]; [|right; by eexists].
  destruct (negb (String.eqb p "")); [|right; by eexists].
  destruct (negb (bool_decide (p ∈ fs w))); [left; by eexists|].
  destruct (negb (existsb (endswith p) config_extensions)); [left; by eexists|].
  destruct (import_config p); simpl; [right|left]; by eexists.
Qed.

Lemma from_file_attrs p w self w' :
  is_mapping DEFAULT_CONFIG = true ->
  from_file p w = (Ok self, w') ->
  holds_objects self w'.
Proof.
  intros Hdefault Hrun.
  destruct (from_file_cases p w) as [[e He]|[config Hc]]; [congruence|].
  rewrite Hc in Hrun. by eapply Cihai_new_attrs.
Qed.

(** C2: what the group does for any invocation.  The callback never comes
    to bootstrap the store nor to reflect it again, whether the store is
    present or not: the application object has no [is_bootstrapped], the
    lookup raises [AttributeError], and the callback returns only where
    the configuration has attached a dataset under the name
    [is_bootstrapped], an object that counts as true. *)
Theorem cli_group_never_bootstraps config log_level w :
  is_mapping DEFAULT_CONFIG = true ->
  let r := cli config log_level w in
  (exists t,
      trace (snd r) = trace w ++ t /\
      ~ In EvBootstrapUnihan t /\ ~ In EvReflectDb t) /\
  (forall c,
      fst r = Ok c ->
      exists l, getattr c "is_bootstrapped" (snd r) = (Ok (VRef l), snd r)).
Proof.
  intros Hdefault r.
  destruct r as [res w'] eqn:Hrun. subst r. simpl.
  unfold cli in Hrun.
  set (construct :=
         match config with
         | Some p =>
             if negb (String.eqb p "") then from_file config
             else Cihai_new VNone true
         | None => Cihai_new VNone true
         end) in Hrun.
  assert (Hsteps : steps 2 6 construct).
  { unfold construct. destruct config as [p|];
      [destruct (negb (String.eqb p ""))|];
      try apply steps_from_file; apply steps_Cihai_new. }
  assert (Hattrs : forall w0 self w1, construct w0 = (Ok self, w1) ->
                                      holds_objects self w1).
  { unfold construct. intros w0 self w1. destruct config as [p|];
      [destruct (negb (String.eqb p ""))|];
      intros H; try (by eapply from_file_attrs); by eapply Cihai_new_attrs. }
  clearbody construct.
  unfold bind at 1 in Hrun. unfold emit at 1 in Hrun.
  set (w1 := set_trace (trace w ++ [EvSetupLogger (upper log_level)]) w) in Hrun.
  unfold bind at 1 in Hrun.
  pose proof (silent_setup_logger None (upper log_level) w1) as Hsilent.
  destruct (setup_logger None (upper log_level) w1) as [[[]|e] w2];
    simpl in Hsilent; cycle 1.
  { injection Hrun as <- <-. split; [|discriminate].
    exists [EvSetupLogger (upper log_level)]. rewrite Hsilent.
    split; [done|]. split; intros [?|[]]; discriminate. }
  unfold bind at 1 in Hrun.
  destruct (Hsteps w2) as (tc & Htc & _ & Hphase).
  rewrite List.Forall_forall in Hphase.
  assert (Hno : ~ In EvBootstrapUnihan tc /\ ~ In EvReflectDb tc).
  { split; intros Hin; apply Hphase in Hin; simpl in Hin; lia. }
  destruct Hno as [Hno1 Hno2].
  pose proof (Hattrs w2) as Hattrs2.
  destruct (construct w2) as [[self|e] w3]; simpl in Htc; cycle 1.
  { injection Hrun as <- <-. split; [|discriminate].
    exists (EvSetupLogger (upper log_level) :: tc).
    rewrite Htc, Hsilent. simpl. rewrite <- app_assoc.
    split; [done|]. split; intros [?|?]; by try discriminate. }
  destruct (Hattrs2 self w3 eq_refl) as (d1 & Hself & Hd).
  unfold bind at 1 in Hrun. unfold emit at 1 in Hrun.
  unfold bind at 1 in Hrun. unfold getattr at 1 in Hrun.
  cbn [heap set_trace] in Hrun. rewrite Hself in Hrun.
  assert (Htrace : trace w3 ++ [EvStoreCheck]
                   = trace w ++ EvSetupLogger (upper log_level)
                                :: tc ++ [EvStoreCheck]).
  { rewrite Htc, Hsilent. simpl. by rewrite <- !app_assoc. }
  assert (Hnone : ~ In EvBootstrapUnihan
                      (EvSetupLogger (upper log_level) :: tc ++ [EvStoreCheck])
                  /\ ~ In EvReflectDb
                        (EvSetupLogger (upper log_level) :: tc ++ [EvStoreCheck])).
  { split; intros [?|Hin]; try discriminate;
      apply in_app_or in Hin as [?|[?|[]]]; by try discriminate. }
  destruct (dict_get "is_bootstrapped" d1) as [v|] eqn:Hv.
  - destruct (Hd _ _ Hv) as [?|[l ->]]; [discriminate|].
    simpl in Hrun. injection Hrun as <- <-. split.
    + eexists. split; [exact Htrace|exact Hnone].
    + intros c [= <-]. exists l. unfold getattr. simpl.
      by rewrite Hself, Hv.
  - simpl in Hrun. injection Hrun as <- <-. split; [|discriminate].
    eexists. split; [exact Htrace|exact Hnone].
Qed.

End constructor_facts.

Lemma cli_group_never_bootstraps_witness :
  fst (@cli sample_env None "info" sample_world)
  = Err (AttributeError OnCihai "is_bootstrapped") /\
  store (snd (@cli sample_env None "info" sample_world)) = [] /\
  exists t,
    trace (snd (@cli sample_env None "info" sample_world))
    = trace sample_world ++ t /\
    ~ In EvBootstrapUnihan t /\ ~ In EvReflectDb t.
Proof.
  destruct (@cli_group_never_bootstraps sample_env None "info" sample_world
              eq_refl) as [Ht _].
  split; [reflexivity|]. split; [reflexivity|exact Ht].
Defined.

Section info_on_application.
Context {E : Env}.

(** C6 on the object that the group passes down: an application object
    has no [base], the command raises at its first line, and nothing is
    queried or printed, whatever rows the store has. *)
Theorem info_command_fails_on_application self d char w :
  heap w !! self = Some (OCihai d) ->
  dict_get "base" d = None ->
  let r := command_info (VRef self) char w in
  fst r = Err (AttributeError OnCihai "base") /\ snd r = w.
Proof.
  intros Hself Hbase. simpl.
  by rewrite (command_info_Cihai self d char w Hself Hbase).
Qed.

(** C8 on the object that the group passes down: for a character that no
    row has, the command does not come to [first()]; it ends with the
    [AttributeError] of the application object, not with one on [None]. *)
Theorem info_command_missing_row_on_application self d char t w :
  heap w !! self = Some (OCihai d) ->
  dict_get "base" d = None ->
  dict_get "Unihan" (store w) = Some t ->
  List.find (row_matches char) (tbl_rows t) = None ->
  let r := command_info (VRef self) char w in
  fst r <> Err (AttributeError OnNone "__table__") /\
  fst r = Err (AttributeError OnCihai "base") /\
  trace (snd r) = trace w.
Proof.
  intros Hself Hbase _ _. simpl.
  rewrite (command_info_Cihai self d char w Hself Hbase). simpl.
  split; [discriminate|done].
Qed.

End info_on_application.

Lemma info_command_fails_on_application_witness :
  List.find (row_matches "A") (tbl_rows sample_unihan_table) <> None /\
  fst (@command_info sample_env (VRef 0) "A" constructed_world)
  = Err (AttributeError OnCihai "base") /\
  snd (@command_info sample_env (VRef 0) "A" constructed_world)
  = constructed_world.
Proof.
  split; [discriminate|].
  apply (@info_command_fails_on_application sample_env 0 constructed_attrs);
    reflexivity.
Defined.

Lemma info_command_missing_row_on_application_witness :
  fst (@command_info sample_env (VRef 0) "Z" constructed_world)
  <> Err (AttributeError OnNone "__table__") /\
  fst (@command_info sample_env (VRef 0) "Z" constructed_world)
  = Err (AttributeError OnCihai "base") /\
  trace (snd (@command_info sample_env (VRef 0) "Z" constructed_world))
  = trace constructed_world.
Proof.
  apply (@info_command_missing_row_on_application sample_env 0
           constructed_attrs "Z" sample_unihan_table);
    reflexivity.
Defined.

(** The whole run [cihai info A] on the bootstrapped installation: it ends
    in the group, and the command is not reached. *)
Example info_run_on_bootstrapped_store :
  fst (@main sample_env None "info" "A" bootstrapped_world)
  = Err (AttributeError OnCihai "is_bootstrapped") /\
  forall line,
    ~ In (EvPrint line)
        (trace (snd (@main sample_env None "info" "A" bootstrapped_world))).
Proof.
  split; [reflexivity|]. intros line. vm_compute.
  intros H. repeat (destruct H as [H|H]; [discriminate|]). exact H.
Qed.

(** On the database handle itself the command does what C6 and C8 say. *)
Example info_on_handle_prints :
  @command_info sample_env (VRef 0) "A" handle_world =
  (Ok tt,
   set_trace
     [EvQuery "A";
      EvPrint (format_line "char" "A");
      EvPrint (format_line "ucn" "U+0041");
      EvPrint (format_line "kDefinition" "first")]
     handle_world).
Proof.
  rewrite (@command_info_on_handle_prints sample_env 0
             [("Unihan", tbl_columns sample_unihan_table)]
             (tbl_columns sample_unihan_table) sample_unihan_table
             [("char", Some "A"); ("ucn", Some "U+0041");
              ("kDefinition", Some "first"); ("kMandarin", None)]
             "A" handle_world); try reflexivity.
  intros c Hc. simpl in Hc.
  repeat (destruct Hc as [<-|Hc]; [by eexists|]). destruct Hc.
Qed.

Example info_on_handle_no_row :
  @command_info sample_env (VRef 0) "Z" handle_world =
  (Err (AttributeError OnNone "__table__"),
   set_trace [EvQuery "Z"] handle_world).
Proof. reflexivity. Qed.

(** * Further properties *)

(** ** Strings *)

Lemma length_append (s1 s2 : string) :
  String.length (s1 ++ s2) = String.length s1 + String.length s2.
Proof. induction s1 as [|a s1 IH]; simpl; [done|]. by rewrite IH. Qed.

Lemma substring_all (s : string) : substring 0 (String.length s) s = s.
Proof. induction s as [|a s IH]; simpl; [done|]. by rewrite IH. Qed.

Lemma substring_append_r (q s : string) n :
  substring (String.length q) n (q ++ s) = substring 0 n s.
Proof. induction q as [|a q IH]; simpl; [done|]. exact IH. Qed.

Lemma substring_split (s : string) n :
  n <= String.length s ->
  s = (substring 0 n s ++ substring n (String.length s - n) s)%string.
Proof.
  revert n. induction s as [|a s IH]; intros n Hn; simpl in *.
  - assert (n = 0) as -> by lia. done.
  - destruct n as [|n]; simpl.
    + by rewrite substring_all.
    + change (String a (substring 0 n s) ++ substring n (String.length s - n) s)%string
        with (String a (substring 0 n s ++ substring n (String.length s - n) s)%string).
      f_equal. apply IH. lia.
Qed.

Lemma endswith_spec (s ext : string) :
  endswith s ext = true <-> exists q : string, s = (q ++ ext)%string.
Proof.
  unfold endswith. split.
  - intros [Hle Heq]%andb_prop.
    apply Nat.leb_le in Hle. apply String.eqb_eq in Heq.
    exists (substring 0 (String.length s - String.length ext) s).
    pose proof (substring_split s (String.length s - String.length ext)) as H.
    replace (String.length s - (String.length s - String.length ext))
      with (String.length ext) in H by lia.
    rewrite Heq in H. apply H. lia.
  - intros [q ->]. rewrite length_append.
    apply andb_true_intro. split; [apply Nat.leb_le; lia|].
    apply String.eqb_eq.
    replace (String.length q + String.length ext - String.length ext)
      with (String.length q) by lia.
    rewrite substring_append_r. apply substring_all.
Qed.

Section from_file_suffix.
Context {E : Env}.

(** X5.  The extension test of [from_file] is [str.endswith] on the
    bare words json, yml, yaml and ini: a path that exists and ends in
    one of them, with or without a dot before it, passes both checks, and
    the file is read and merged into the configuration of a new
    application object. *)
Theorem from_file_accepts_suffix (q ext : string) w :
  In ext config_extensions ->
  (q ++ ext)%string ∈ fs w ->
  from_file (Some (q ++ ext)%string) w =
  (let* custom_config :=
     of_option (ConfigError (q ++ ext)) (import_config (q ++ ext)%string) in
   Cihai_new (merge_dict (VDict []) custom_config) true) w.
Proof.
  intros Hext Hfs.
  assert (Hne : (q ++ ext)%string <> "").
  { intros H. apply (f_equal String.length) in H.
    rewrite length_append in H. simpl in H.
    assert (String.length ext <> 0); [|lia].
    unfold config_extensions in Hext. simpl in Hext.
    destruct Hext as [<-|[<-|[<-|[<-|[]]]]]; simpl; lia. }
  assert (Hsuffix : existsb (endswith (q ++ ext)) config_extensions = true).
  { apply existsb_exists. exists ext. split; [done|].
    apply endswith_spec. by exists q. }
  unfold from_file. apply String.eqb_neq in Hne. rewrite Hne. simpl negb.
  cbv iota. unfold bind at 1. unfold bind at 1. unfold path_exists.
  rewrite bool_decide_eq_true_2 by done. simpl negb. cbv iota.
  unfold config_extensions in Hsuffix. simpl existsb in Hsuffix.
  rewrite Hsuffix. simpl negb. cbv iota.
  unfold bind. destruct (import_config (q ++ ext)%string); reflexivity.
Qed.

End from_file_suffix.

Lemma from_file_accepts_suffix_witness :
  fst (@from_file sample_env (Some "/etc/cihaiini")
         (World [] {["/etc/cihaiini"]} ∅ [] []))
  = Err (ConfigError "/etc/cihaiini").
Proof.
  rewrite (@from_file_accepts_suffix sample_env "/etc/cihai" "ini").
  - reflexivity.
  - unfold config_extensions. simpl. tauto.
  - vm_compute. reflexivity.
Defined.

(** ** Logging *)

Section logging_facts.
Context {E : Env}.

Lemma get_logger_set_ne name other lg w :
  other <> name ->
  get_logger other (set_loggers (<[name := lg]> (loggers w)) w) = get_logger other w.
Proof.
  intros Hne. unfold get_logger. simpl. by rewrite lookup_insert_ne.
Qed.

(** X1.  [setup_logger] goes through exactly when the logger has a
    handler already or the level is a name that [logging] knows; the only
    exception it raises is the [ValueError] of [setLevel], and then
    nothing has changed: the handler is added after the level is set. *)
Theorem setup_logger_outcome logger level w :
  let lg := get_logger (logger_name logger) w in
  (fst (setup_logger logger level w) = Ok tt <->
   log_handlers lg <> [] \/ is_Some (checkLevel level)) /\
  (forall e w',
      setup_logger logger level w = (Err e, w') ->
      w' = w /\ exists msg, e = ValueError msg).
Proof.
  intros lg. unfold setup_logger. fold lg.
  destruct (log_handlers lg) as [|h hs] eqn:Hh.
  - destruct (checkLevel level) as [n|] eqn:Hn; simpl.
    + split; [|intros e w'; discriminate].
      split; [intros _; right; by eexists|done].
    + split.
      * split; [discriminate|]. intros [H|[n Hn']]; [done|discriminate].
      * intros e w' [= <- <-]. split; [done|by eexists].
  - simpl. split; [|intros e w'; discriminate].
    split; [intros _; by left|done].
Qed.

(** X2.  On a logger without handlers and with a level name that
    [logging] knows, [setup_logger] sets the logger to that level and
    gives it one stream handler; every other logger, and everything else,
    stays as it was. *)
Theorem setup_logger_installs logger level n w :
  log_handlers (get_logger (logger_name logger) w) = [] ->
  checkLevel level = Some n ->
  exists w',
    setup_logger logger level w = (Ok tt, w') /\
    get_logger (logger_name logger) w' = Logger n [StreamHandler] /\
    (forall other,
        other <> logger_name logger -> get_logger other w' = get_logger other w) /\
    heap w' = heap w /\ fs w' = fs w /\ store w' = store w /\ trace w' = trace w.
Proof.
  intros Hh Hn. unfold setup_logger. rewrite Hh, Hn.
  eexists. split; [reflexivity|]. split; [by rewrite get_logger_set|].
  split; [|done]. intros other Hne. by apply get_logger_set_ne.
Qed.



Lemma length_upper s : String.length (upper s) = String.length s.
Proof. induction s as [|a s IH]; simpl; [done|]. by rewrite IH. Qed.



End logging_facts.

Lemma setup_logger_outcome_witness :
  fst (setup_logger None "bogus" empty_world) <> Ok tt /\
  snd (setup_logger None "bogus" empty_world) = empty_world.
Proof.
  destruct (setup_logger_outcome None "bogus" empty_world) as [Hiff Herr].
  split.
  - intros H. apply Hiff in H. destruct H as [H|[n H]]; [by apply H|discriminate].
  - symmetry. exact (proj1 (Herr _ _ eq_refl)).
Defined.


Lemma setup_logger_installs_witness :
  exists w',
    @setup_logger None "DEBUG" empty_world = (Ok tt, w') /\
    get_logger "root" w' = Logger 10 [StreamHandler].
Proof.
  destruct (setup_logger_installs None "DEBUG" 10%Z empty_world eq_refl eq_refl)
    as (w' & Hrun & Hlg & _).
  exists w'. split; [exact Hrun|exact Hlg].
Defined.


(** ** Datasets *)

Section add_dataset_more.
Context {E : Env}.




End add_dataset_more.




(** ** Output lines, frames and the constructor *)






Section frame_facts.
Context {E : Env}.
























(** X9.  [bootstrap] on a configuration without datasets, and without
    plugins or with plugin groups that are all empty, does nothing: the
    dataset of an empty group is not looked up. *)
Theorem bootstrap_nothing_to_load self d cfg w :
  heap w !! self = Some (OCihai d) ->
  dict_get "config" d = Some (VDict cfg) ->
  (dict_get "datasets" cfg = None \/ dict_get "datasets" cfg = Some (VDict [])) ->
  (dict_get "plugins" cfg = None \/
   exists groups,
     dict_get "plugins" cfg = Some (VDict groups) /\
     Forall (fun g => snd g = VDict []) groups) ->
  bootstrap self w = (Ok tt, w).
Proof.
  intros Hself Hcfg Hds Hps.
  assert (Hload : load_datasets self w = (Ok tt, w)).
  { unfold load_datasets, bind, getattr. rewrite Hself, Hcfg. simpl.
    by destruct Hds as [->| ->]. }
  assert (Hgroups : forall groups,
            Forall (fun g => snd g = VDict []) groups ->
            for_each groups (load_plugin_group self) w = (Ok tt, w)).
  { induction 1 as [|[ds ps] groups Hg _ IH]; [done|].
    simpl in Hg. subst ps. simpl. unfold bind at 1. simpl. exact IH. }
  unfold bootstrap. rewrite (bind_ok _ _ _ _ _ Hload).
  unfold load_plugins, bind, getattr. rewrite Hself, Hcfg. simpl.
  destruct Hps as [->|(groups & -> & Hall)]; simpl; [done|].
  by rewrite Hgroups.
Qed.


End frame_facts.

Lemma bootstrap_nothing_to_load_witness :
  let w := World [OCihai [("config",
                           VDict [("plugins", VDict [("unihan", VDict [])])]);
                          ("sql", VRef 1)];
                  ODatabase []] ∅ ∅ [] [] in
  @bootstrap sample_env 0 w = (Ok tt, w).
Proof.
  intros w.
  apply (@bootstrap_nothing_to_load sample_env 0
           [("config", VDict [("plugins", VDict [("unihan", VDict [])])]);
            ("sql", VRef 1)]
           [("plugins", VDict [("unihan", VDict [])])] w eq_refl eq_refl).
  - by left.
  - right. eexists. split; [reflexivity|]. by repeat constructor.
Defined.


(** ** The info command *)

Section info_facts.
Context {E : Env}.

Lemma logged_nil w : logged w [] w.
Proof. unfold logged, set_trace. rewrite app_nil_r. by destruct w. Qed.

Lemma logged_app w t1 w1 t2 w2 :
  logged w t1 w1 -> logged w1 t2 w2 -> logged w (t1 ++ t2) w2.
Proof.
  unfold logged, set_trace. intros -> ->. simpl. by rewrite app_assoc.
Qed.

Lemma getattr_same v n w : getattr v n w = (fst (getattr v n w), w).
Proof.
  rewrite <- (getattr_world v n w) at 3. by destruct (getattr v n w).
Qed.

(** The loop of [command_info] writes the lines it prints and nothing
    else. *)
Lemma print_loop_logged query cols w :
  exists lines,
    logged w (map EvPrint lines)
      (snd (for_each cols (fun c =>
              let* value := getattr query c in
              if truthy value then
                let value :=
                  if PY2 then encode_utf8 (text_of value) else text_of value in
                emit (EvPrint (format_line c value))
              else ret tt) w)) /\
    length lines <= length cols.
Proof.
  revert w. induction cols as [|c cols IH]; intros w.
  - exists []. split; [apply logged_nil|done].
  - simpl. unfold bind at 1. unfold bind at 1.
    rewrite (getattr_same query c w).
    destruct (fst (getattr query c w)) as [value|e]; cycle 1.
    { exists []. split; [apply logged_nil|simpl; lia]. }
    destruct (truthy value).
    + unfold emit at 1.
      destruct (IH (set_trace
                      (trace w ++
                       [EvPrint
                          (format_line c
                             (if PY2 then encode_utf8 (text_of value)
                              else text_of value))]) w))
        as (lines & Hlines & Hlen).
      exists ((format_line c
                 (if PY2 then encode_utf8 (text_of value) else text_of value))
              :: lines).
      split; [|simpl; lia].
      change (map EvPrint (?x :: lines)) with ([EvPrint x] ++ map EvPrint lines).
      eapply logged_app; [|exact Hlines]. done.
    + unfold ret at 1. destruct (IH w) as (lines & Hlines & Hlen).
      exists lines. split; [done|simpl; lia].
Qed.

(** X12.  [command_info] reads: whatever object it is given and however
    it ends, heap, file system, loggers and store are as they were, and
    it has either done nothing or made the one query for [char] and then
    printed lines, nothing before the query. *)
Theorem command_info_reads_only c char w :
  let w' := snd (command_info c char w) in
  heap w' = heap w /\ fs w' = fs w /\ loggers w' = loggers w /\
  store w' = store w /\
  (trace w' = trace w \/
   exists lines, trace w' = trace w ++ EvQuery char :: map EvPrint lines).
Proof.
  intros w'. subst w'.
  assert (Hgoal : forall w1 : world,
            (w1 = w \/ exists lines, logged w (EvQuery char :: map EvPrint lines) w1) ->
            heap w1 = heap w /\ fs w1 = fs w /\ loggers w1 = loggers w /\
            store w1 = store w /\
            (trace w1 = trace w \/
             exists lines, trace w1 = trace w ++ EvQuery char :: map EvPrint lines)).
  { intros w1 [->|[lines Hl]]; [by repeat split; try left|].
    unfold logged in Hl. subst w1. cbn [set_trace heap fs loggers store trace].
    do 4 (split; [reflexivity|]). right. by exists lines. }
  apply Hgoal. clear Hgoal.
  destruct (command_info c char w) as [res w'] eqn:Hrun. simpl.
  unfold command_info in Hrun.
  unfold bind at 1 in Hrun. rewrite (getattr_same c "base" w) in Hrun.
  destruct (fst (getattr c "base" w)) as [base|e];
    [|injection Hrun as _ <-; by left].
  unfold bind at 1 in Hrun. rewrite (getattr_same base "classes" w) in Hrun.
  destruct (fst (getattr base "classes" w)) as [classes|e];
    [|injection Hrun as _ <-; by left].
  unfold bind at 1 in Hrun. rewrite (getattr_same classes "Unihan" w) in Hrun.
  destruct (fst (getattr classes "Unihan" w)) as [Unihan|e];
    [|injection Hrun as _ <-; by left].
  unfold bind at 1 in Hrun. rewrite (getattr_same c "session" w) in Hrun.
  destruct (fst (getattr c "session" w)) as [session|e];
    [|injection Hrun as _ <-; by left].
  unfold bind at 1 in Hrun.
  set (w1 := set_trace (trace w ++ [EvQuery char]) w) in *.
  assert (Hq : (exists e, query_first session Unihan char w = (Err e, w)) \/
               (exists r, query_first session Unihan char w = (r, w1))).
  { unfold query_first.
    destruct session; try (left; by eexists).
    destruct Unihan; try (left; by eexists).
    destruct (String.eqb part "session"); [|left; by eexists].
    right. unfold bind, emit. fold w1.
    destruct (mem_string "char" columns); [|by eexists].
    destruct (dict_get name (store w1)) as [t|]; [|by eexists].
    destruct (List.find (row_matches char) (tbl_rows t)); by eexists. }
  assert (Hlogged1 : logged w (EvQuery char :: map EvPrint []) w1) by done.
  destruct Hq as [[e Hq]|[r Hq]]; rewrite Hq in Hrun;
    [injection Hrun as _ <-; by left|].
  destruct r as [query|e]; [|injection Hrun as _ <-; right; by exists []].
  unfold bind at 1 in Hrun.
  destruct query; simpl table_columns in Hrun;
    try (injection Hrun as _ <-; right; by exists []).
  unfold ret at 1 in Hrun.
  destruct (print_loop_logged (VRecord columns r) columns w1)
    as (lines & Hlines & _).
  apply (f_equal snd) in Hrun. cbn [snd] in Hrun. subst w'.
  right. exists lines.
  change (EvQuery char :: map EvPrint lines)
    with ([EvQuery char] ++ map EvPrint lines).
  eapply logged_app; [|exact Hlines]. done.
Qed.

End info_facts.

(** ** Plugin groups and datasets of a run *)

Section plugin_groups.
Context {E : Env}.

Lemma attached_In k l t : In (EvAddDataset k l) t -> In k (attached t).
Proof.
  induction t as [|e t IH]; simpl; [done|].
  intros [->|Hin]; [by left|].
  destruct e; try (by apply IH). right. by apply IH.
Qed.

Lemma self_dict_ok_known n0 db cfg t d1 :
  self_dict_ok n0 db cfg t d1 -> attrs_known cfg (attached t) d1.
Proof.
  intros (_ & _ & Hd) k v Hk.
  destruct (Hd k v Hk) as [?|(l & _ & _ & [[? _]|Hin])];
    [by left|right; by left|].
  right. right. by eapply attached_In.
Qed.

(** The call for a plugin of a group whose key is no dataset raises, and
    nothing has been done. *)
Lemma plugin_step_needs_dataset self cfg d1 datasets dataset ns cs w :
  is_mapping DEFAULT_CONFIG = true ->
  heap w !! self = Some (OCihai d1) ->
  attrs_known cfg datasets d1 ->
  ~ In dataset datasets ->
  dataset <> "sql" ->
  exists e,
    (let* d := getattr (VRef self) dataset in
     let* f := getattr d "add_plugin" in
     call_method2 f cs ns) w = (Err e, w).
Proof.
  intros Hdefault Hself Hknown Hnot Hsql.
  unfold bind at 1. unfold getattr at 1. rewrite Hself.
  destruct (dict_get dataset d1) as [v|] eqn:Hv.
  - destruct (Hknown _ _ Hv) as [[_ ->]|[?|?]]; [|done|done].
    by eexists.
  - unfold of_option, Cihai_class_attr.
    destruct (String.eqb dataset "default_config").
    { unfold ret at 1. unfold bind at 1.
      destruct DEFAULT_CONFIG; try discriminate. by eexists. }
    destruct (mem_string dataset Cihai_methods); by eexists.
Qed.

Lemma load_plugin_group_loadable self cfg d1 datasets group w w' :
  is_mapping DEFAULT_CONFIG = true ->
  heap w !! self = Some (OCihai d1) ->
  attrs_known cfg datasets d1 ->
  load_plugin_group self group w = (Ok tt, w') ->
  group_loadable datasets group.
Proof.
  intros Hdefault Hself Hknown Hrun. destruct group as [dataset plugins].
  unfold group_loadable. simpl.
  destruct plugins as [| | | |items| | | | | |]; try discriminate.
  split; [by eexists|]. intros Hne.
  destruct items as [|[ns cs] items]; [done|].
  destruct (List.in_dec String.string_dec dataset datasets) as [?|Hnot];
    [by left|].
  destruct (String.string_dec dataset "sql") as [?|Hsql]; [by right|].
  exfalso.
  destruct (plugin_step_needs_dataset self cfg d1 datasets dataset ns cs w
              Hdefault Hself Hknown Hnot Hsql) as [e He].
  assert (Hfail : load_plugin_group self (dataset, VDict ((ns, cs) :: items)) w
                  = (Err e, w)).
  { unfold load_plugin_group. unfold bind at 1. simpl dict_items.
    unfold ret at 1. cbn [for_each]. apply bind_err. exact He. }
  congruence.
Qed.

Lemma load_plugin_groups_loadable n0 db self cfg d1 keys T datasets groups :
  is_mapping DEFAULT_CONFIG = true ->
  attrs_ok n0 db cfg d1 ->
  attrs_known cfg datasets d1 ->
  forall w w',
    (forall g, In g groups -> In (fst g) keys) ->
    stateB n0 db self d1 keys T w ->
    for_each groups (load_plugin_group self) w = (Ok tt, w') ->
    Forall (group_loadable datasets) groups.
Proof.
  intros Hdefault Hattrs Hknown.
  induction groups as [|g groups IH]; intros w w' Hkeys HB Hrun; [done|].
  simpl in Hrun. unfold bind at 1 in Hrun.
  pose proof (load_plugin_group_spec n0 db self cfg d1 keys T g Hdefault Hattrs
                (Hkeys g (or_introl eq_refl)) w HB) as Hspec.
  destruct (load_plugin_group self g w) as [[[]|e] w1] eqn:Hg; [|discriminate].
  constructor.
  - eapply load_plugin_group_loadable; [done| |done|exact Hg].
    by destruct HB as (_ & ? & _).
  - eapply (IH w1 w'); [|exact Hspec|exact Hrun].
    intros g' Hg'. apply Hkeys. by right.
Qed.

(** X13.  [bootstrap] returns only where every plugin group of the
    configuration is a mapping and every group that has a plugin is named
    after a configured dataset (or after [sql]): for any other key the
    lookup on the application object, or the lookup of [add_plugin] on
    what it gives, raises at the group's first plugin. *)
Theorem bootstrap_needs_datasets self db cfg reflected w w' :
  is_mapping DEFAULT_CONFIG = true ->
  heap w !! self = Some (OCihai [("config", VDict cfg); ("sql", VRef db)]) ->
  heap w !! db = Some (ODatabase reflected) ->
  bootstrap self w = (Ok tt, w') ->
  forall group plugins,
    In (group, plugins) (mapping_items "plugins" cfg) ->
    (exists items, plugins = VDict items) /\
    (plugins <> VDict [] ->
     In group (dict_keys (mapping_items "datasets" cfg)) \/ group = "sql").
Proof.
  intros Hdefault Hself Hdb Hrun.
  pose proof (initial_stateA self db cfg reflected w Hself Hdb) as HA.
  set (n0 := length (heap w)) in *.
  set (datasets := dict_keys (mapping_items "datasets" cfg)).
  pose proof (load_datasets_spec n0 db self cfg (trace w) w HA) as HrunA.
  unfold bootstrap, bind in Hrun.
  destruct (load_datasets self w) as [[[]|e] w1]; [|discriminate].
  destruct HrunA as [Hheap1 (d1 & tA & Hself1 & HtrA & HdsA & HattA & Hdict1 & HL1)].
  assert (Hattrs : attrs_ok n0 db cfg d1).
  { intros k v Hk. destruct Hdict1 as (_ & _ & Hd).
    destruct (Hd k v Hk) as [?|(l & ? & ? & _)]; [by left|right; by eauto]. }
  assert (Hknown : attrs_known cfg datasets d1).
  { unfold datasets. rewrite <- HattA. by eapply self_dict_ok_known. }
  set (keys := dict_keys (mapping_items "plugins" cfg)).
  assert (HB : stateB n0 db self d1 keys (trace w1) w1).
  { split; [done|]. split; [done|]. exists []. by rewrite app_nil_r. }
  assert (Hall : Forall (group_loadable datasets) (mapping_items "plugins" cfg)).
  { unfold load_plugins in Hrun. unfold bind at 1 in Hrun.
    unfold getattr at 1 in Hrun. rewrite Hself1 in Hrun.
    destruct Hdict1 as (_ & [c Hc] & Hd). rewrite Hc in Hrun.
    destruct (Hd _ _ Hc) as [[_ ->]|(l & -> & _)]; [|discriminate].
    unfold bind at 1 in Hrun. simpl dict_get_default in Hrun.
    unfold ret at 1 in Hrun. unfold mapping_items in *.
    destruct (dict_get "plugins" cfg) as [ps|]; [|done].
    simpl default in Hrun.
    destruct ps as [| | | |groups| | | | | |]; try discriminate.
    unfold bind at 1 in Hrun. simpl dict_items in Hrun.
    unfold ret at 1 in Hrun.
    eapply (load_plugin_groups_loadable n0 db self cfg d1 keys (trace w1));
      [done|done|done| |exact HB|exact Hrun].
    intros g Hg. unfold keys, dict_keys. by apply in_map. }
  intros group plugins Hin.
  rewrite List.Forall_forall in Hall. exact (Hall _ Hin).
Qed.

End plugin_groups.

Lemma bootstrap_needs_datasets_witness :
  exists w',
    @bootstrap sample_env 0 plugin_world = (Ok tt, w') /\
    In "unihan" (dict_keys (mapping_items "datasets" plugin_config)).
Proof.
  destruct (@bootstrap sample_env 0 plugin_world) as [r w'] eqn:Hrun.
  assert (Hr : r = Ok tt) by (apply (f_equal fst) in Hrun; exact (eq_sym Hrun)).
  subst r. exists w'. split; [reflexivity|].
  destruct (@bootstrap_needs_datasets sample_env 0 1 plugin_config []
              plugin_world w' eq_refl eq_refl eq_refl Hrun "unihan"
              (VDict [("variants", VStr "cihai.unihan.UnihanVariants")]))
    as [_ Hneeds].
  - by left.
  - destruct Hneeds as [H|H]; [discriminate|exact H|discriminate].
Defined.

Section attached_facts.
Context {E : Env}.

Lemma attached_plugin_events db d1 keys t :
  Forall (plugin_event_ok db d1 keys) t -> attached t = [].
Proof.
  induction 1 as [|e t He _ IH]; [done|].
  destruct e; simpl in *; try done.
Qed.

(** X14.  Where [bootstrap] returns, the datasets have been attached
    once each and in the order of the configuration, and every namespace
    of [datasets] is an attribute of the application object afterwards:
    an object, unless the namespace is [config]. *)
Theorem bootstrap_attaches_all self db cfg reflected w w' :
  is_mapping DEFAULT_CONFIG = true ->
  heap w !! self = Some (OCihai [("config", VDict cfg); ("sql", VRef db)]) ->
  heap w !! db = Some (ODatabase reflected) ->
  bootstrap self w = (Ok tt, w') ->
  let datasets := dict_keys (mapping_items "datasets" cfg) in
  (exists t, trace w' = trace w ++ t /\ attached t = datasets) /\
  (forall k, In k datasets ->
     exists v, getattr (VRef self) k w' = (Ok v, w') /\
               (k <> "config" -> exists l, v = VRef l)).
Proof.
  intros Hdefault Hself Hdb Hrun datasets.
  pose proof (initial_stateA self db cfg reflected w Hself Hdb) as HA.
  set (n0 := length (heap w)) in *.
  pose proof (load_datasets_spec n0 db self cfg (trace w) w HA) as HrunA.
  unfold bootstrap, bind in Hrun.
  destruct (load_datasets self w) as [[[]|e] w1]; [|discriminate].
  destruct HrunA as [Hheap1 (d1 & tA & Hself1 & HtrA & HdsA & HattA & Hdict1 & HL1)].
  assert (Hattrs : attrs_ok n0 db cfg d1).
  { intros k v Hk. destruct Hdict1 as (_ & _ & Hd).
    destruct (Hd k v Hk) as [?|(l & ? & ? & _)]; [by left|right; by eauto]. }
  assert (HB : stateB n0 db self d1
                 (dict_keys (mapping_items "plugins" cfg)) (trace w1) w1).
  { split; [done|]. split; [done|]. exists []. by rewrite app_nil_r. }
  pose proof (load_plugins_spec n0 db self cfg d1 (trace w1) Hdefault Hattrs
                (proj1 (proj2 Hdict1)) w1 HB) as HrunB.
  destruct (load_plugins self w1) as [[[]|e] w2]; [|discriminate].
  injection Hrun as <-.
  destruct HrunB as (_ & Hself2 & tB & HtrB & HevB).
  split.
  - exists (tA ++ tB). split; [by rewrite HtrB, HtrA, <- app_assoc|].
    rewrite attached_app, HattA, (attached_plugin_events _ _ _ _ HevB).
    by rewrite app_nil_r.
  - intros k Hk. destruct (HL1 k Hk) as [v Hv]. exists v. split.
    + by apply (getattr_Cihai_dict _ d1).
    + intros Hne. destruct (Hattrs k v Hv) as [[? _]|(l & ? & _)]; [done|].
      by exists l.
Qed.

End attached_facts.

Lemma bootstrap_attaches_all_witness :
  exists w' v,
    @bootstrap sample_env 0 plugin_world = (Ok tt, w') /\
    @getattr sample_env (VRef 0) "unihan" w' = (Ok v, w').
Proof.
  destruct (@bootstrap sample_env 0 plugin_world) as [r w'] eqn:Hrun.
  assert (Hr : r = Ok tt) by (apply (f_equal fst) in Hrun; exact (eq_sym Hrun)).
  subst r.
  destruct (@bootstrap_attaches_all sample_env 0 1 plugin_config []
              plugin_world w' eq_refl eq_refl eq_refl Hrun) as [_ Hall].
  destruct (Hall "unihan") as (v & Hv & _); [by left|].
  exists w', v. split; [reflexivity|exact Hv].
Defined.

(** ** test.py *)

Lemma append_assoc (a b c : string) :
  ((a ++ b) ++ c)%string = (a ++ (b ++ c))%string.
Proof.
  induction a as [|x a IH]; [done|].
  change (String x ((a ++ b) ++ c)%string = String x (a ++ (b ++ c))%string).
  by rewrite IH.
Qed.

(** X18.  The settings of [test.py]: [database_url] is never empty; it
    is [DATABASE_URL] where that is set and not empty, and the in-memory
    SQLite URL otherwise.  [data_path] is [DATA_PATH], or the empty
    string where that is not set. *)
Theorem test_settings environ :
  database_url environ <> "" /\
  (forall s, environ !! "DATABASE_URL" = Some s -> s <> "" ->
             database_url environ = s) /\
  (database_url environ = "sqlite:///:memory:" \/
   environ !! "DATABASE_URL" = Some (database_url environ)) /\
  data_path environ = default "" (environ !! "DATA_PATH").
Proof.
  unfold database_url, data_path, database_url_environ, data_path_environ,
    or_default, is_set, database_url_default, data_path_default.
  split; [|split; [|split]].
  - destruct (environ !! "DATABASE_URL") as [s|]; [|done].
    destruct (String.eqb s "") eqn:Es; simpl; [done|]. by apply String.eqb_neq.
  - intros s -> Hs. apply String.eqb_neq in Hs. by rewrite Hs.
  - destruct (environ !! "DATABASE_URL") as [s|]; [|by left].
    destruct (String.eqb s ""); simpl; [by left|by right].
  - destruct (environ !! "DATA_PATH") as [s|]; [|done]. simpl.
    destruct (String.eqb s "") eqn:Es; simpl; [|done].
    apply String.eqb_eq in Es. by subst s.
Qed.

(** X17.  Where [DATA_PATH] is set and not empty, [get_datafile] joins
    the directory of [test.py], [fixtures/] and the file name, whatever
    the value of [DATA_PATH] is: a relative name lies below [fixtures/],
    and a name that starts with a slash comes back as it is. *)
Theorem get_datafile_fixture environ here fallback filename v :
  environ !! "DATA_PATH" = Some v ->
  v <> "" ->
  here <> "" ->
  endswith here "/" = false ->
  (String.prefix "/" filename = false ->
   get_datafile environ here fallback filename
   = Ok (here ++ "/fixtures/" ++ filename)%string) /\
  (String.prefix "/" filename = true ->
   get_datafile environ here fallback filename = Ok filename).
Proof.
  intros Hv Hne Hhere Hend.
  unfold get_datafile, data_path_environ, is_set. rewrite Hv.
  apply String.eqb_neq in Hne. rewrite Hne. simpl negb. cbv iota.
  apply String.eqb_neq in Hhere.
  unfold path_join. simpl fold_left.
  assert (H1 : join_component here "fixtures/" = (here ++ "/fixtures/")%string).
  { unfold join_component. simpl String.prefix.
    rewrite Hhere, Hend. simpl. reflexivity. }
  rewrite H1. unfold join_component.
  split; intros Hp; rewrite Hp; [|done].
  assert (Hends : endswith (here ++ "/fixtures/") "/" = true).
  { apply endswith_spec. exists (here ++ "/fixtures")%string.
    by rewrite append_assoc. }
  rewrite Hends, orb_true_r.
  by rewrite append_assoc.
Qed.

Lemma test_settings_witness :
  database_url {["DATABASE_URL" := "postgresql://localhost/cihai"]}
  = "postgresql://localhost/cihai" /\
  database_url {["DATABASE_URL" := ""]} = "sqlite:///:memory:".
Proof.
  split.
  - apply (proj1 (proj2 (test_settings
                           {["DATABASE_URL" := "postgresql://localhost/cihai"]})));
      [vm_compute; reflexivity|discriminate].
  - destruct (proj1 (proj2 (proj2 (test_settings {["DATABASE_URL" := ""]}))))
      as [H|H]; [exact H|vm_compute in H; discriminate].
Defined.

Lemma get_datafile_fixture_witness :
  get_datafile {["DATA_PATH" := "1"]} "/srv/cihai"
    (fun _ => Err (ImportError "..util")) "Unihan_Readings.txt"
  = Ok "/srv/cihai/fixtures/Unihan_Readings.txt" /\
  get_datafile {["DATA_PATH" := "1"]} "/srv/cihai"
    (fun _ => Err (ImportError "..util")) "/etc/passwd"
  = Ok "/etc/passwd".
Proof.
  destruct (get_datafile_fixture {["DATA_PATH" := "1"]} "/srv/cihai"
              (fun _ => Err (ImportError "..util")) "Unihan_Readings.txt" "1")
    as [Hrel _]; [vm_compute; reflexivity|discriminate|discriminate|reflexivity|].
  destruct (get_datafile_fixture {["DATA_PATH" := "1"]} "/srv/cihai"
              (fun _ => Err (ImportError "..util")) "/etc/passwd" "1")
    as [_ Habs]; [vm_compute; reflexivity|discriminate|discriminate|reflexivity|].
  split; [exact (Hrel eq_refl)|exact (Habs eq_refl)].
Defined.

(** ** The command on a handle, and the new object *)

Section handle_facts.
Context {E : Env}.



End handle_facts.


Section constructor_more.
Context {E : Env}.

Lemma bootstrap_ok_keeps_attrs self db cfg reflected w w' :
  is_mapping DEFAULT_CONFIG = true ->
  heap w !! self = Some (OCihai [("config", VDict cfg); ("sql", VRef db)]) ->
  heap w !! db = Some (ODatabase reflected) ->
  bootstrap self w = (Ok tt, w') ->
  length (heap w) <= length (heap w') /\
  exists d1,
    heap w' !! self = Some (OCihai d1) /\
    is_Some (dict_get "config" d1) /\ is_Some (dict_get "sql" d1).
Proof.
  intros Hdefault Hself Hdb Hrun.
  pose proof (initial_stateA self db cfg reflected w Hself Hdb) as HA.
  set (n0 := length (heap w)) in *.
  pose proof (load_datasets_spec n0 db self cfg (trace w) w HA) as HrunA.
  unfold bootstrap, bind in Hrun.
  destruct (load_datasets self w) as [[[]|e] w1]; [|discriminate].
  destruct HrunA as [Hheap1 (d1 & tA & Hself1 & HtrA & HdsA & HattA & Hdict1 & HL1)].
  assert (Hattrs : attrs_ok n0 db cfg d1).
  { intros k v Hk. destruct Hdict1 as (_ & _ & Hd).
    destruct (Hd k v Hk) as [?|(l & ? & ? & _)]; [by left|right; by eauto]. }
  assert (HB : stateB n0 db self d1
                 (dict_keys (mapping_items "plugins" cfg)) (trace w1) w1).
  { split; [done|]. split; [done|]. exists []. by rewrite app_nil_r. }
  pose proof (load_plugins_spec n0 db self cfg d1 (trace w1) Hdefault Hattrs
                (proj1 (proj2 Hdict1)) w1 HB) as HrunB.
  destruct (load_plugins self w1) as [[[]|e] w2]; [|discriminate].
  injection Hrun as <-.
  destruct HrunB as ((Hlen & _) & Hself2 & _).
  split; [exact Hlen|].
  exists d1. split; [done|]. by destruct Hdict1 as (? & ? & _).
Qed.

(** X16.  Where [Cihai(config, unihan)] returns, it returns an object
    that was not there before, with its [config] and its [sql]; the heap
    has that object and the database handle more, at least. *)
Theorem Cihai_new_fresh config unihan w self w' :
  is_mapping DEFAULT_CONFIG = true ->
  Cihai_new config unihan w = (Ok self, w') ->
  self = length (heap w) /\
  heap w !! self = None /\
  length (heap w) + 2 <= length (heap w') /\
  exists d,
    heap w' !! self = Some (OCihai d) /\
    is_Some (dict_get "config" d) /\ is_Some (dict_get "sql" d).
Proof.
  intros Hdefault Hrun. rewrite Cihai_new_unfold in Hrun.
  unfold bind in Hrun.
  destruct (bootstrap (length (heap w)) (before_bootstrap config unihan w))
    as [[[]|e] w''] eqn:Hb; [|discriminate].
  injection Hrun as <- <-.
  split; [done|]. split; [by apply lookup_ge_None|].
  set (cfg := expand_config (merged_config config unihan)) in *.
  assert (Hself : heap (before_bootstrap config unihan w) !! length (heap w)
                  = Some (OCihai [("config", cfg);
                                  ("sql", VRef (S (length (heap w))))])).
  { unfold before_bootstrap. simpl. by apply list_lookup_middle. }
  assert (Hdb : heap (before_bootstrap config unihan w) !! S (length (heap w))
                = Some (ODatabase (reflect (store w)))).
  { unfold before_bootstrap. simpl.
    rewrite lookup_app_r by lia.
    replace (S (length (heap w)) - length (heap w)) with 1 by lia. done. }
  assert (Hlen0 : length (heap (before_bootstrap config unihan w))
                  = length (heap w) + 2).
  { unfold before_bootstrap. simpl. rewrite length_app. simpl. lia. }
  destruct (is_mapping cfg) eqn:Hmap.
  - destruct cfg as [| | | |c| | | | | |] eqn:Hcfg; try discriminate.
    destruct (bootstrap_ok_keeps_attrs _ _ _ _ _ _ Hdefault Hself Hdb Hb)
      as (Hlen & Hd).
    split; [lia|exact Hd].
  - rewrite (bootstrap_config_not_mapping _ _ cfg _ Hself eq_refl Hmap) in Hb.
    discriminate.
Qed.

End constructor_more.

Lemma Cihai_new_fresh_witness :
  exists w' d,
    @Cihai_new sample_env VNone true sample_world = (Ok 0, w') /\
    heap w' !! 0 = Some (OCihai d) /\
    is_Some (dict_get "sql" d).
Proof.
  destruct (@Cihai_new sample_env VNone true sample_world) as [r w'] eqn:Hrun.
  assert (Hr : r = Ok 0) by (apply (f_equal fst) in Hrun; exact (eq_sym Hrun)).
  subst r.
  destruct (@Cihai_new_fresh sample_env VNone true sample_world 0 w' eq_refl Hrun)
    as (_ & _ & _ & d & Hd & _ & Hsql).
  exists w', d. split; [reflexivity|]. split; [exact Hd|exact Hsql].
Defined.

(** ** Exceptions of a run, and the steps of the constructor *)

Section exception_facts.
Context {E : Env}.



























End exception_facts.


Section protocol_facts.
Context {E : Env}.



End protocol_facts.
